(** * Product Information Chatbot: the message router of [chatbot.py]

    A shallow embedding of [ProductChatbot] (language detection, the two
    access gates, the analytics engine, [process_message] and the session
    operations) together with the properties of its specification.

    Conventions of the embedding.
    - A Python [str] is a sequence of Unicode code points: [str := list Z].
      Literals are written as in the source and decoded from the UTF-8 bytes
      of the Rocq string by [utf8].
    - The instance [self] is a record; the methods that mutate it or talk to
      the hosted model run in a state-and-exception monad [M] over a
      [World] (the instance, the log of requests sent to the model, and what
      was printed on the error stream).
    - The hosted model is an oracle [completions_create]: a request either
      yields a text or raises.
    - [price] and [units_sold] are integers (exact arithmetic); binary
      floating-point rounding of fractional prices is outside the model. *)

From Stdlib Require Import ZArith List Bool Lia.
From Stdlib.Strings Require Import String Ascii Byte.
From Stdlib Require Import Permutation Sorted.
Import ListNotations.
Open Scope Z_scope.

(* ================================================================== *)
(** ** Python strings *)

Module PyStr.

(** A Python string: its code points, in order. *)
Definition str := list Z.

(** One UTF-8 sequence is decoded per step (1 to 4 bytes); a truncated
    sequence, which no literal of this file contains, is dropped. *)
Fixpoint utf8_decode (bs : list Z) : str :=
  match bs with
  | [] => []
  | b0 :: r0 =>
    if b0 <? 0x80 then b0 :: utf8_decode r0
    else match r0 with
    | [] => []
    | b1 :: r1 =>
      if b0 <? 0xE0 then
        Z.lor (Z.shiftl (Z.land b0 0x1F) 6) (Z.land b1 0x3F) :: utf8_decode r1
      else match r1 with
      | [] => []
      | b2 :: r2 =>
        if b0 <? 0xF0 then
          Z.lor (Z.shiftl (Z.land b0 0x0F) 12)
            (Z.lor (Z.shiftl (Z.land b1 0x3F) 6) (Z.land b2 0x3F))
          :: utf8_decode r2
        else match r2 with
        | [] => []
        | b3 :: r3 =>
          Z.lor (Z.shiftl (Z.land b0 0x07) 18)
            (Z.lor (Z.shiftl (Z.land b1 0x3F) 12)
               (Z.lor (Z.shiftl (Z.land b2 0x3F) 6) (Z.land b3 0x3F)))
          :: utf8_decode r3
        end
      end
    end
  end.

(** The string literal [s] of the source. *)
Definition utf8 (s : string) : str :=
  utf8_decode (map (fun b => Z.of_N (Byte.to_N b)) (list_byte_of_string s)).

(** [a <= b] on strings: lexicographic on code points. *)
Fixpoint str_leb (a b : str) : bool :=
  match a, b with
  | [], _ => true
  | _ :: _, [] => false
  | x :: a', y :: b' => (x <? y) || ((x =? y) && str_leb a' b')
  end.

(** [s.startswith(p)]. *)
Fixpoint startswith (s p : str) : bool :=
  match p, s with
  | [], _ => true
  | _ :: _, [] => false
  | x :: p', y :: s' => (x =? y) && startswith s' p'
  end.

(** [p in s]: [p] occurs in [s] as a contiguous run. *)
Fixpoint contains (s p : str) : bool :=
  startswith s p ||
  match s with
  | [] => false
  | _ :: s' => contains s' p
  end.

(** [c.lower()] for one character.  The entries are those of the Unicode
    case mapping that this program can observe: every character whose
    lowercase form holds an ASCII letter (A-Z, U+0130 LATIN CAPITAL LETTER I
    WITH DOT ABOVE, whose lowercase is the two code points U+0069 U+0307, and
    U+212A KELVIN SIGN, whose lowercase is U+006B), and the Latin-1 capitals.
    Any other cased letter is left as it is (so is the Greek sigma, whose
    lowercase form depends on its place in the word): neither it nor its
    lowercase form is an ASCII or Arabic character, so no keyword test and
    no count of this program tells the two apart.  Arabic has no case. *)
Definition lower_char (c : Z) : str :=
  if (0x41 <=? c) && (c <=? 0x5A) then [c + 32]
  else if (0xC0 <=? c) && (c <=? 0xDE) && negb (c =? 0xD7) then [c + 32]
  else if c =? 0x130 then [0x69; 0x307]
  else if c =? 0x212A then [0x6B]
  else [c].

(** [s.lower()]. *)
Definition lower (s : str) : str := flat_map lower_char s.

(** [sum(xs)]: Python adds from the left, starting at 0. *)
Definition py_sum (xs : list Z) : Z := fold_left Z.add xs 0.

(** [if o: yes(o) else: no] for an [Optional[str]]: [None] and the empty
    string are false. *)
Definition if_truthy {A : Type} (o : option str) (yes : str -> A) (no : A) : A :=
  match o with
  | Some ((_ :: _) as s) => yes s
  | _ => no
  end.

(** [str(n)] for an integer. *)
Fixpoint uint_digits (d : Decimal.uint) : str :=
  match d with
  | Decimal.Nil => []
  | Decimal.D0 d' => 48 :: uint_digits d'
  | Decimal.D1 d' => 49 :: uint_digits d'
  | Decimal.D2 d' => 50 :: uint_digits d'
  | Decimal.D3 d' => 51 :: uint_digits d'
  | Decimal.D4 d' => 52 :: uint_digits d'
  | Decimal.D5 d' => 53 :: uint_digits d'
  | Decimal.D6 d' => 54 :: uint_digits d'
  | Decimal.D7 d' => 55 :: uint_digits d'
  | Decimal.D8 d' => 56 :: uint_digits d'
  | Decimal.D9 d' => 57 :: uint_digits d'
  end.

Definition abs_digits (z : Z) : str := uint_digits (N.to_uint (Z.abs_N z)).

Definition sign (z : Z) : str := if z <? 0 then [45] else [].

Definition fmt_int (z : Z) : str := sign z ++ abs_digits z.

(** A comma after every third digit, counted from the right. *)
Fixpoint commas_rev (ds : str) : str :=
  match ds with
  | a :: b :: c :: ((_ :: _) as r) => a :: b :: c :: 44 :: commas_rev r
  | _ => ds
  end.

(** [f"{x:,.2f}"] for a float [x] whose value is the integer [z]: its
    exact digits, grouped, and two zero decimals. *)
Definition money_text (z : Z) : str :=
  sign z ++ rev (commas_rev (rev (abs_digits z))) ++ [46; 48; 48].

End PyStr.
Import PyStr.

(* ================================================================== *)
(** ** Data model *)

(** [class UserRole(Enum)]. *)
Inductive UserRole := CUSTOMER | STAFF.

Definition UserRole_eqb (a b : UserRole) : bool :=
  match a, b with
  | CUSTOMER, CUSTOMER | STAFF, STAFF => true
  | _, _ => false
  end.

(** The two values [detect_language] returns, ['english'] and ['arabic']. *)
Inductive Language := english | arabic.

Definition Language_eqb (a b : Language) : bool :=
  match a, b with
  | english, english | arabic, arabic => true
  | _, _ => false
  end.

(** One entry of the ["products"] collection (field [id] is [product_id]
    here).  [price] and [units_sold] are JSON integers, as a Python [int]:
    a price written with a fraction is loaded as a float, whose products
    and sums are rounded at every step, and is outside this development. *)
Record Product := {
  product_id : str;
  name : str;
  name_ar : str;
  price : Z;
  currency : str;
  category : str;
  units_sold : Z;
  description : str;
  description_ar : str
}.

(** A chat message [{"role": ..., "content": ...}]. *)
Inductive Speaker := system | user | assistant.

Record ChatMessage := { role : Speaker; content : str }.

(** A value of [attribute_policies]; the dict itself is the list of its
    items in insertion order. *)
Record Policy := { staff_only : bool; keywords : list str }.

(** The fields of a [ProductChatbot] other than [client]. *)
Record ProductChatbot := {
  model : str;
  products : list Product;
  user_role : UserRole;
  conversation_history : list ChatMessage;
  attribute_policies : list (str * Policy);
  system_prompt : str
}.

(** What [chat.completions.create] is called with. *)
Record Request := { rq_model : str; rq_messages : list ChatMessage }.

Inductive exn :=
| ValueError (msg : str)
| APIError (msg : str)
| OverflowError (msg : str).

Definition exn_str (e : exn) : str :=
  match e with ValueError m | APIError m | OverflowError m => m end.

Inductive result (A : Type) :=
| Returned (a : A)
| Raised (e : exn).
Arguments Returned {A} a.
Arguments Raised {A} e.

(** [k] on what [r] returned; what [r] raised goes on. *)
Definition and_then {A B : Type} (r : result A) (k : A -> result B) : result B :=
  match r with
  | Returned a => k a
  | Raised e => Raised e
  end.

(** The double nearest to the integer [a >= 0], ties to the even
    significand, as the integer it is equal to: [a] itself up to 53 bits,
    and beyond them the 53 leading bits rounded. *)
Definition round_to_double (a : Z) : Z :=
  let bits := Z.log2 a + 1 in
  if bits <=? 53 then a
  else
    let shift := bits - 53 in
    let leading := Z.shiftr a shift in
    let rest := a mod 2 ^ shift in
    let half := 2 ^ (shift - 1) in
    let rounded :=
      if (half <? rest) || ((rest =? half) && Z.odd leading)
      then leading + 1 else leading in
    Z.shiftl rounded shift.

(** [float(z)] for an integer [z]: [OverflowError] when the nearest double
    would be [2 ** 1024] or more. *)
Definition float_of_int (z : Z) : result Z :=
  let nearest := round_to_double (Z.abs z) in
  if 2 ^ 1024 <=? nearest
  then Raised (OverflowError (utf8 "int too large to convert to float"))
  else Returned (Z.sgn z * nearest).

(** [f"{z:,.2f}"] for an integer [z]: the integer is converted to a float,
    and the float is formatted. *)
Definition fmt_money (z : Z) : result str :=
  and_then (float_of_int z) (fun x => Returned (money_text x)).

(** The dict returned by [get_session_info]. *)
Record SessionInfo := {
  info_role : str;
  messages_count : Z;
  products_available : Z
}.

(* ================================================================== *)
(** ** Language detector *)

Definition nl : str := [10].

(** ['\u0600' <= char <= '\u06FF']. *)
Definition is_arabic_char (char : Z) : bool :=
  (0x0600 <=? char) && (char <=? 0x06FF).

(** ['a' <= char.lower() <= 'z'], a comparison of strings. *)
Definition is_english_char (char : Z) : bool :=
  str_leb (utf8 "a") (lower_char char) && str_leb (lower_char char) (utf8 "z").

Definition detect_language (text : str) : Language :=
  let arabic_count := py_sum (map (fun _ => 1) (filter is_arabic_char text)) in
  let english_count := py_sum (map (fun _ => 1) (filter is_english_char text)) in
  if arabic_count >? english_count then arabic else english.

(* ================================================================== *)
(** ** Access gates *)

Definition _build_attribute_policies : list (str * Policy) :=
  [ (utf8 "name", {| staff_only := false;
       keywords := [utf8 "name"; utf8 "called"; utf8 "product"] |});
    (utf8 "description", {| staff_only := false;
       keywords := [utf8 "description"; utf8 "details"; utf8 "about"] |});
    (utf8 "category", {| staff_only := false;
       keywords := [utf8 "category"; utf8 "type"; utf8 "segment"; utf8 "kind"] |});
    (utf8 "price", {| staff_only := false;
       keywords := [utf8 "price"; utf8 "cost"; utf8 "how much"; utf8 "usd";
                    utf8 "dollar"] |});
    (utf8 "units_sold", {| staff_only := true;
       keywords := [utf8 "units sold"; utf8 "sold units"; utf8 "units"; utf8 "sold";
                    utf8 "sales volume"; utf8 "best seller"; utf8 "top seller";
                    utf8 "most sold"; utf8 "most selling";
                    utf8 "وحدات مباعة"; utf8 "الوحدات المباعة"; utf8 "مباعة";
                    utf8 "الأكثر مبيعاً"; utf8 "أفضل مبيعاً"] |});
    (utf8 "revenue", {| staff_only := true;
       keywords := [utf8 "revenue"; utf8 "total sales"; utf8 "sales revenue";
                    utf8 "earnings"; utf8 "إيرادات"; utf8 "الإيرادات";
                    utf8 "المبيعات"] |}) ].

Definition staff_keywords : list str :=
  [ utf8 "report"; utf8 "analytics"; utf8 "revenue"; utf8 "sales";
    utf8 "dashboard"; utf8 "performance";
    utf8 "تقرير"; utf8 "تقارير"; utf8 "تحليلات"; utf8 "إيرادات";
    utf8 "الإيرادات"; utf8 "مبيعات"; utf8 "المبيعات" ].

Definition staff_only_ar : str :=
  utf8 "تقارير المبيعات والتحليلات متاحة فقط لموظفي الشركة. يمكنني مساعدتك بمعلومات عن المنتجات بدلاً من ذلك.".

Definition staff_only_en : str :=
  utf8 "Sales reports and analytics are only available to staff members. I can help you with product information instead.".

Definition _check_staff_only_request (self : ProductChatbot) (user_message : str)
  : option str :=
  let lower_message := lower user_message in
  let is_staff_request :=
    existsb (fun keyword => contains lower_message keyword) staff_keywords in
  if is_staff_request && UserRole_eqb (user_role self) CUSTOMER then
    let language := detect_language user_message in
    match language with
    | arabic => Some staff_only_ar
    | english => Some staff_only_en
    end
  else None.

Definition attribute_ar : str := utf8 "هذه المعلومة متاحة فقط لموظفي الشركة.".

Definition attribute_en : str := utf8 "This information is available to staff only.".

(** The [for attr, policy in self.attribute_policies.items()] loop. *)
Fixpoint scan_policies (policies : list (str * Policy))
    (lower_message user_message : str) : option str :=
  match policies with
  | [] => None
  | (attr, policy) :: rest =>
    if negb (staff_only policy) then
      scan_policies rest lower_message user_message
    else if existsb (fun keyword => contains lower_message keyword)
              (keywords policy) then
      let language := detect_language user_message in
      match language with
      | arabic => Some attribute_ar
      | english => Some attribute_en
      end
    else scan_policies rest lower_message user_message
  end.

Definition _check_attribute_access (self : ProductChatbot) (user_message : str)
  : option str :=
  if UserRole_eqb (user_role self) STAFF then None
  else
    let lower_message := lower user_message in
    scan_policies (attribute_policies self) lower_message user_message.

(* ================================================================== *)
(** ** Analytics engine *)

Definition revenue_of (p : Product) : Z := price p * units_sold p.

(** [sum(p['price'] * p['units_sold'] for p in self.products)]. *)
Definition total_revenue_of (ps : list Product) : Z := py_sum (map revenue_of ps).

(** [sum(p['units_sold'] for p in self.products)]. *)
Definition total_units_of (ps : list Product) : Z := py_sum (map units_sold ps).

(** The scan of [max(..., key=...)]: the item kept is replaced only by a
    strictly larger one, so the first maximal item wins. *)
Fixpoint max_from (best : Product) (ps : list Product) : Product :=
  match ps with
  | [] => best
  | p :: rest =>
    max_from (if units_sold p >? units_sold best then p else best) rest
  end.

(** [max(self.products, key=lambda x: x['units_sold'])]. *)
Definition py_max (ps : list Product) : result Product :=
  match ps with
  | [] => Raised (ValueError (utf8 "max() arg is an empty sequence"))
  | p :: rest => Returned (max_from p rest)
  end.

(** [sorted(..., key=lambda x: x['units_sold'], reverse=True)]: a stable
    sort, largest key first; items of equal key keep their order. *)
Fixpoint insert_desc (x : Product) (sorted : list Product) : list Product :=
  match sorted with
  | [] => [x]
  | y :: rest =>
    if units_sold y >? units_sold x then y :: insert_desc x rest
    else x :: y :: rest
  end.

Fixpoint py_sorted_desc (ps : list Product) : list Product :=
  match ps with
  | [] => []
  | p :: rest => insert_desc p (py_sorted_desc rest)
  end.

(** The line appended for one product in the loop of the report. *)
Definition product_line (product : Product) : result str :=
  let revenue := price product * units_sold product in
  and_then (fmt_money revenue) (fun revenue_2f =>
  Returned
    (nl ++ utf8 "- " ++ name product ++ utf8 ": "
        ++ fmt_int (units_sold product)
        ++ utf8 " units ($" ++ revenue_2f ++ utf8 ")")).

(** The f-string that opens the report, up to [Products by Sales:]. *)
Definition report_head (now : str) (ps : list Product)
    (total_units total_revenue : Z) (best_seller : Product) : result str :=
  and_then (fmt_money total_revenue) (fun total_revenue_2f =>
  and_then (fmt_money (price best_seller * units_sold best_seller))
    (fun best_revenue_2f =>
  Returned
    (nl ++ utf8 "=== SALES REPORT ===" ++ nl
     ++ utf8 "Generated: " ++ now ++ nl
     ++ nl
     ++ utf8 "Summary:" ++ nl
     ++ utf8 "- Total Products: " ++ fmt_int (Z.of_nat (List.length ps)) ++ nl
     ++ utf8 "- Total Units Sold: " ++ fmt_int total_units ++ nl
     ++ utf8 "- Total Revenue: $" ++ total_revenue_2f ++ nl
     ++ nl
     ++ utf8 "Top Performer:" ++ nl
     ++ utf8 "- Product: " ++ name best_seller ++ nl
     ++ utf8 "- Units Sold: " ++ fmt_int (units_sold best_seller) ++ nl
     ++ utf8 "- Revenue: $" ++ best_revenue_2f ++ nl
     ++ nl
     ++ utf8 "Products by Sales:" ++ nl))).

(** [now] is the text of [datetime.now().strftime(...)]. *)
Definition _generate_sales_report (now : str) (self : ProductChatbot)
  : result str :=
  let total_revenue := total_revenue_of (products self) in
  let total_units := total_units_of (products self) in
  match py_max (products self) with
  | Raised e => Raised e
  | Returned best_seller =>
    let report :=
      report_head now (products self) total_units total_revenue best_seller in
    let sorted_products := py_sorted_desc (products self) in
    fold_left
      (fun report product =>
         and_then report (fun report =>
         and_then (product_line product) (fun line =>
         Returned (report ++ line))))
      sorted_products report
  end.

Definition fmt_en_revenue (total_revenue : Z) : result str :=
  and_then (fmt_money total_revenue) (fun total_revenue_2f =>
  Returned (utf8 "Total revenue: $" ++ total_revenue_2f ++ utf8 " USD.")).

Definition fmt_ar_revenue (total_revenue : Z) : result str :=
  and_then (fmt_money total_revenue) (fun total_revenue_2f =>
  Returned
    (utf8 "إجمالي الإيرادات: $" ++ total_revenue_2f ++ utf8 " دولار أمريكي.")).

Definition fmt_en_units (total_units : Z) : str :=
  utf8 "Total units sold: " ++ fmt_int total_units ++ utf8 ".".

Definition fmt_ar_units (total_units : Z) : str :=
  utf8 "إجمالي الوحدات المباعة: " ++ fmt_int total_units ++ utf8 ".".

Definition fmt_en_best (best_seller : option Product) : result str :=
  match best_seller with
  | Some b =>
    and_then (fmt_money (price b * units_sold b)) (fun revenue_2f =>
    Returned
      (utf8 "Best seller: " ++ name b ++ utf8 " — " ++ fmt_int (units_sold b)
         ++ utf8 " units " ++ utf8 "($" ++ revenue_2f ++ utf8 ")."))
  | None => Returned (utf8 "No products available.")
  end.

Definition fmt_ar_best (best_seller : option Product) : result str :=
  match best_seller with
  | Some b =>
    and_then (fmt_money (price b * units_sold b)) (fun revenue_2f =>
    Returned
      (utf8 "أفضل منتج مبيعاً: " ++ name_ar b ++ utf8 " — " ++ fmt_int (units_sold b)
         ++ utf8 " وحدة " ++ utf8 "($" ++ revenue_2f ++ utf8 ")."))
  | None => Returned (utf8 "لا توجد منتجات متاحة.")
  end.

Definition revenue_keywords : list str :=
  [ utf8 "revenue"; utf8 "total revenue"; utf8 "إيرادات"; utf8 "الإيرادات";
    utf8 "إجمالي الإيرادات"; utf8 "المبيعات"; utf8 "إجمالي المبيعات";
    utf8 "تقرير المبيعات" ].

Definition units_keywords : list (list str) :=
  [ [utf8 "units"; utf8 "sold"]; [utf8 "وحدات"; utf8 "مباعة"];
    [utf8 "الوحدات"; utf8 "المباعة"] ].

Definition best_seller_keywords : list str :=
  [ utf8 "best seller"; utf8 "top seller"; utf8 "most sold"; utf8 "most selling";
    utf8 "الأكثر مبيعاً"; utf8 "أفضل مبيعاً"; utf8 "الأكثر مبيعا"; utf8 "أكثر منتج" ].

(** [text] as the answer of the handler. *)
Definition answered (text : result str) : result (option str) :=
  and_then text (fun text => Returned (Some text)).

Definition _handle_staff_analytics (self : ProductChatbot)
    (user_message : str) (language : Language) : result (option str) :=
  if negb (UserRole_eqb (user_role self) STAFF) then Returned None
  else
    let lower_message := lower user_message in
    let total_revenue := total_revenue_of (products self) in
    let total_units := total_units_of (products self) in
    (* [max(...) if self.products else None]; on [p :: rest], [py_max]
       returns [max_from p rest] *)
    let best_seller :=
      match products self with
      | [] => None
      | p :: rest => Some (max_from p rest)
      end in
    if existsb (fun keyword => contains lower_message keyword) revenue_keywords
    then answered (if Language_eqb language english
                   then fmt_en_revenue total_revenue
                   else fmt_ar_revenue total_revenue)
    else if existsb (fun pair =>
                       forallb (fun word => contains lower_message word) pair)
              units_keywords
    then Returned (Some (if Language_eqb language english
                         then fmt_en_units total_units
                         else fmt_ar_units total_units))
    else if existsb (fun term => contains lower_message term)
              best_seller_keywords
    then answered (if Language_eqb language english
                   then fmt_en_best best_seller
                   else fmt_ar_best best_seller)
    else Returned None.

(* ================================================================== *)
(** ** State, exceptions and the hosted model *)

(** What a method can read and change: the instance, the requests sent to
    the hosted model so far (oldest first), the lines printed on
    [sys.stderr]. *)
Record World := {
  bot : ProductChatbot;
  sent : list Request;
  stderr : list str
}.

(** A computation returns or raises, and leaves a world behind either way. *)
Definition M (A : Type) : Type := World -> result A * World.

Definition ret {A} (a : A) : M A := fun w => (Returned a, w).

Definition bind {A B} (m : M A) (k : A -> M B) : M B :=
  fun w =>
    match m w with
    | (Returned a, w') => k a w'
    | (Raised e, w') => (Raised e, w')
    end.

(** A pure call that may raise. *)
Definition lift {A} (r : result A) : M A := fun w => (r, w).

(** [try: body except Exception as e: handler]. *)
Definition try_except {A} (body : M A) (handler : exn -> M A) : M A :=
  fun w =>
    match body w with
    | (Returned a, w') => (Returned a, w')
    | (Raised e, w') => handler e w'
    end.

Definition get_self : M ProductChatbot := fun w => (Returned (bot w), w).

Definition set_conversation_history (h : list ChatMessage) : M unit :=
  fun w =>
    (Returned tt,
     {| bot := {| model := model (bot w);
                  products := products (bot w);
                  user_role := user_role (bot w);
                  conversation_history := h;
                  attribute_policies := attribute_policies (bot w);
                  system_prompt := system_prompt (bot w) |};
        sent := sent w;
        stderr := stderr w |}).

(** [self.conversation_history.append(m)]. *)
Definition append_history (m : ChatMessage) : M unit :=
  fun w => set_conversation_history (conversation_history (bot w) ++ [m]) w.

(** [print(line, file=sys.stderr)]. *)
Definition print_stderr (line : str) : M unit :=
  fun w =>
    (Returned tt,
     {| bot := bot w; sent := sent w; stderr := stderr w ++ [line] |}).

Declare Scope monad_scope.
Delimit Scope monad_scope with monad.
Notation "x <- m ;; k" := (bind m (fun x => k))
  (at level 61, m at next level, right associativity) : monad_scope.
Notation "m ;; k" := (bind m (fun _ => k))
  (at level 61, right associativity) : monad_scope.
Open Scope monad_scope.

Definition apology : str :=
  utf8 "I apologize, but I'm experiencing technical difficulties. Please try again later.".

Definition restate_en : str :=
  utf8 "Respond ONLY in English. Do not include any Arabic. ".

Definition restate_ar : str :=
  utf8 "أعد الإجابة باللغة العربية فقط ولا تستخدم الإنجليزية.".

Section Router.

(** The hosted model, [self.client.chat.completions.create]: given the
    requests made before and the request at hand, it yields the text of
    [response.choices[0].message.content] or raises. *)
Variable completions_create : list Request -> Request -> result str.

(** The text of [datetime.now().strftime('%Y-%m-%d %H:%M:%S')]. *)
Variable now : str.

Definition _get_ai_response (system_prompt user_message : str)
    (conversation_history : list ChatMessage) : M str :=
  fun w =>
    let messages :=
      ({| role := system; content := system_prompt |} :: conversation_history)
      ++ [{| role := user; content := user_message |}] in
    let request := {| rq_model := model (bot w); rq_messages := messages |} in
    (completions_create (sent w) request,
     {| bot := bot w; sent := sent w ++ [request]; stderr := stderr w |}).

Definition process_message (user_message : str) : M str :=
  let user_language := detect_language user_message in
  self <- get_self ;;
  let role_check := _check_staff_only_request self user_message in
  if_truthy role_check (fun role_check => ret role_check) (
  let attribute_check := _check_attribute_access self user_message in
  if_truthy attribute_check (fun attribute_check => ret attribute_check) (
  if existsb (fun keyword => contains (lower user_message) keyword)
       [utf8 "report"; utf8 "analytics"]
     && UserRole_eqb (user_role self) STAFF
  then lift (_generate_sales_report now self)
  else
  analytics_response <-
    lift (_handle_staff_analytics self user_message user_language) ;;
  if_truthy analytics_response (fun analytics_response =>
    append_history {| role := user; content := user_message |} ;;
    append_history {| role := assistant; content := analytics_response |} ;;
    ret analytics_response) (
  append_history {| role := user; content := user_message |} ;;
  try_except
    (self <- get_self ;;
     response <- _get_ai_response (system_prompt self) user_message
                   (removelast (conversation_history self)) ;;
     let response_language := detect_language response in
     response <-
       (if negb (Language_eqb response_language user_language) then
          let restate_instruction :=
            if Language_eqb user_language english then restate_en
            else restate_ar in
          _get_ai_response (system_prompt self)
            (restate_instruction ++ nl ++ utf8 "Question: " ++ user_message)
            (removelast (conversation_history self))
        else ret response) ;;
     append_history {| role := assistant; content := response |} ;;
     ret response)
    (fun e =>
       let error_message :=
         utf8 "Error communicating with AI service: " ++ exn_str e in
       print_stderr (utf8 "DEBUG: " ++ error_message) ;;
       ret apology)))).

(** [self.conversation_history = []]. *)
Definition reset_conversation : M unit := set_conversation_history [].

Definition get_session_info : M SessionInfo :=
  self <- get_self ;;
  ret {| info_role :=
           match user_role self with
           | CUSTOMER => utf8 "customer"
           | STAFF => utf8 "staff"
           end;
         messages_count := Z.of_nat (List.length (conversation_history self));
         products_available := Z.of_nat (List.length (products self)) |}.

End Router.

(* ================================================================== *)
(** ** Definitions used to state the properties *)

(** The Arabic Unicode block, U+0600 to U+06FF. *)
Definition in_arabic_block (c : Z) : bool := (0x0600 <=? c) && (c <=? 0x06FF).

(** An ASCII letter, of either case. *)
Definition ascii_letter (c : Z) : bool :=
  ((0x41 <=? c) && (c <=? 0x5A)) || ((0x61 <=? c) && (c <=? 0x7A)).

(** The characters the detector counts as English: the ASCII letters, and
    the two characters outside ASCII whose lowercase form compares between
    ["a"] and ["z"]. *)
Definition counted_as_english (c : Z) : bool :=
  ascii_letter c || (c =? 0x130) || (c =? 0x212A).

(** How many characters of [text] satisfy [p]. *)
Definition count_chars (p : Z -> bool) (text : str) : nat :=
  List.length (filter p text).

(** The sum of a list of numbers, whatever the order of the additions. *)
Definition sum_of (xs : list Z) : Z := fold_right Z.add 0 xs.



(** The integer [z] converts to a float: the double nearest to it is below
    [2 ** 1024]. *)
Definition fits_float (z : Z) : Prop := round_to_double (Z.abs z) < 2 ^ 1024.

(** The value of [float(z)] when [z] converts. *)
Definition nearest_double (z : Z) : Z := Z.sgn z * round_to_double (Z.abs z).

(** Every figure of the catalog converts to a float: the units sold and
    the revenue of each record, and the two totals.  (Only the revenues are
    formatted as floats; a count of units in this range is also within what
    every interpreter prints, whatever its limit on the digits of an
    integer.) *)
Definition figures_fit (ps : list Product) : Prop :=
  fits_float (total_revenue_of ps)
  /\ fits_float (total_units_of ps)
  /\ Forall (fun p => fits_float (price p * units_sold p)
                     /\ fits_float (units_sold p)) ps.


(** Some keyword of [kws] occurs in the lowercased message. *)
Definition mentions (kws : list str) (user_message : str) : Prop :=
  exists keyword, In keyword kws /\ contains (lower user_message) keyword = true.

(** Some keyword of a [staff_only] entry of the policy occurs in the
    lowercased message. *)
Definition mentions_restricted (policies : list (str * Policy))
    (user_message : str) : Prop :=
  exists attr policy,
    In (attr, policy) policies /\ staff_only policy = true /\
    mentions (keywords policy) user_message.

(** Both words of some pair of [units_keywords] occur in the lowercased
    message. *)
Definition mentions_units (user_message : str) : Prop :=
  exists pair,
    In pair units_keywords /\
    forall word, In word pair -> contains (lower user_message) word = true.

(** The three answers of the staff analytics handler, in the language
    asked for. *)
Definition revenue_answer (self : ProductChatbot) (language : Language)
  : result str :=
  match language with
  | english => fmt_en_revenue (total_revenue_of (products self))
  | arabic => fmt_ar_revenue (total_revenue_of (products self))
  end.

Definition units_answer (self : ProductChatbot) (language : Language) : str :=
  match language with
  | english => fmt_en_units (total_units_of (products self))
  | arabic => fmt_ar_units (total_units_of (products self))
  end.

(** The two rejections, in the language detected on the message. *)
Definition staff_only_rejection (user_message : str) : str :=
  match detect_language user_message with
  | arabic => staff_only_ar
  | english => staff_only_en
  end.

Definition attribute_rejection (user_message : str) : str :=
  match detect_language user_message with
  | arabic => attribute_ar
  | english => attribute_en
  end.

(** No check of [process_message] answers the message before the hosted
    model is asked: neither gate rejects it, it is no staff report request
    and the staff analytics handler has no answer. *)
Definition delegated (self : ProductChatbot) (user_message : str) : bool :=
  if_truthy (_check_staff_only_request self user_message) (fun _ => false) (
  if_truthy (_check_attribute_access self user_message) (fun _ => false) (
  if existsb (fun keyword => contains (lower user_message) keyword)
       [utf8 "report"; utf8 "analytics"]
     && UserRole_eqb (user_role self) STAFF
  then false
  else
  match _handle_staff_analytics self user_message
          (detect_language user_message) with
  | Returned analytics_response =>
    if_truthy analytics_response (fun _ => false) true
  | Raised _ => false
  end)).

(** The instance with [h] as its transcript. *)
Definition with_history (self : ProductChatbot) (h : list ChatMessage)
  : ProductChatbot :=
  {| model := model self;
     products := products self;
     user_role := user_role self;
     conversation_history := h;
     attribute_policies := attribute_policies self;
     system_prompt := system_prompt self |}.

(** The request [_get_ai_response] builds for [user_message]. *)
Definition request_for (self : ProductChatbot) (history : list ChatMessage)
    (user_message : str) : Request :=
  {| rq_model := model self;
     rq_messages :=
       ({| role := system; content := system_prompt self |} :: history)
       ++ [{| role := user; content := user_message |}] |}.

(** The surrogate user turn of the corrective call. *)
Definition corrective_message (user_message : str) : str :=
  (match detect_language user_message with
   | english => restate_en
   | arabic => restate_ar
   end) ++ nl ++ utf8 "Question: " ++ user_message.

(** What the error handler prints for [e]. *)
Definition debug_line (e : exn) : str :=
  utf8 "DEBUG: " ++ utf8 "Error communicating with AI service: " ++ exn_str e.

(** A hosted model that is down, and one that answers from a script: the
    n-th request receives the n-th text. *)
Definition model_down : list Request -> Request -> result str :=
  fun _ _ => Raised (APIError (utf8 "Connection error.")).

Definition scripted (replies : list str) : list Request -> Request -> result str :=
  fun earlier _ =>
    match nth_error replies (List.length earlier) with
    | Some text => Returned text
    | None => Raised (APIError (utf8 "Connection error."))
    end.

(** A session over a given catalog, as [__init__] leaves it, with a role. *)
Definition session (catalog : list Product) (r : UserRole) : World :=
  {| bot := {| model := utf8 "gpt-3.5-turbo";
               products := catalog;
               user_role := r;
               conversation_history := [];
               attribute_policies := _build_attribute_policies;
               system_prompt := utf8 "You are an AI assistant" |};
     sent := [];
     stderr := [] |}.

(** A question no check answers, and two replies of the hosted model. *)
Definition price_question : str := utf8 "What is the price?".

Definition reply_ar : str := utf8 "السعر هو 100 دولار".

Definition reply_en : str := utf8 "The price is 100 USD.".

Definition item (n : string) (p u : Z) : Product :=
  {| product_id := utf8 n; name := utf8 n; name_ar := utf8 n; price := p;
     currency := utf8 "USD"; category := utf8 "Software"; units_sold := u;
     description := []; description_ar := [] |}.

Definition catalog3 : list Product :=
  [item "CRM" 100 10; item "ERP" 20 50; item "HR" 5 30].

(** A catalog of one record whose revenue is beyond the floats. *)
Definition huge_catalog : list Product := [item "Mainframe" (10 ^ 309) 1].

(* ================================================================== *)
(** ** Construction, role and system prompt *)

(** [a == b] on strings. *)
Fixpoint str_eqb (a b : str) : bool :=
  match a, b with
  | [], [] => true
  | x :: a', y :: b' => (x =? y) && str_eqb a' b'
  | _, _ => false
  end.

(** The double quote. *)
Definition dq : str := [34].

(** [UserRole(value)]: the member with that value, or [ValueError]. *)
Definition UserRole_of_value (value : str) : result UserRole :=
  if str_eqb value (utf8 "customer") then Returned CUSTOMER
  else if str_eqb value (utf8 "staff") then Returned STAFF
  else Raised (ValueError (utf8 "'" ++ value ++ utf8 "' is not a valid UserRole")).

(** The instance with [r] as its role. *)
Definition with_role (self : ProductChatbot) (r : UserRole) : ProductChatbot :=
  {| model := model self;
     products := products self;
     user_role := r;
     conversation_history := conversation_history self;
     attribute_policies := attribute_policies self;
     system_prompt := system_prompt self |}.

(** [set_user_role]: the outcome with the instance it leaves, and the lines
    printed on the standard output.  [except ValueError] lets any other
    exception through. *)
Definition set_user_role (role : str) (self : ProductChatbot)
  : result ProductChatbot * list str :=
  match UserRole_of_value (lower role) with
  | Returned r => (Returned (with_role self r), [])
  | Raised (ValueError _) =>
    (Returned (with_role self CUSTOMER),
     [utf8 "Invalid role: " ++ role ++ utf8 ". Using 'customer' as default."])
  | Raised e => (Raised e, [])
  end.

(** The f-string appended for one product in [_format_products_for_context]. *)
Definition product_context (product : Product) : str :=
  nl ++ utf8 "- ID: " ++ product_id product ++ nl
  ++ utf8 "  Name (EN): " ++ name product ++ nl
  ++ utf8 "  Name (AR): " ++ name_ar product ++ nl
  ++ utf8 "  Price: $" ++ fmt_int (price product) ++ utf8 " " ++ currency product ++ nl
  ++ utf8 "  Category: " ++ category product ++ nl
  ++ utf8 "  Units Sold: " ++ fmt_int (units_sold product) ++ nl
  ++ utf8 "  Description (EN): " ++ description product ++ nl
  ++ utf8 "  Description (AR): " ++ description_ar product ++ nl.

(** [_format_products_for_context], over [self.products]. *)
Definition _format_products_for_context (ps : list Product) : str :=
  fold_left (fun formatted product => formatted ++ product_context product)
    ps (utf8 "Available Products:" ++ nl).

(** The text of the system prompt before and after [{products_context}]. *)
Definition system_prompt_head : str :=
  utf8 "You are an AI assistant for a software development company's product support chatbot. " ++ nl
  ++ utf8 "Your role is to answer ONLY questions related to the company's products and services." ++ nl
  ++ nl
  ++ utf8 "IMPORTANT SCOPE LIMITATIONS:" ++ nl
  ++ utf8 "1. You can ONLY answer questions about the products listed below" ++ nl
  ++ utf8 "2. You must reject ANY questions outside the product scope (weather, politics, personal advice, homework, etc.)" ++ nl
  ++ utf8 "3. When asked out-of-scope questions, politely decline and redirect to company products" ++ nl
  ++ nl
  ++ utf8 "PRODUCT DATABASE:" ++ nl.

Definition system_prompt_tail : str :=
  nl
  ++ nl
  ++ utf8 "CRITICAL LANGUAGE HANDLING RULE:" ++ nl
  ++ utf8 "⚠️ YOU MUST RESPOND IN ONLY ONE LANGUAGE:" ++ nl
  ++ utf8 "- If user asks in ENGLISH → Respond ONLY in English (no Arabic)" ++ nl
  ++ utf8 "- If user asks in ARABIC → Respond ONLY in Arabic (no English)" ++ nl
  ++ utf8 "- NEVER mix languages or provide bilingual responses" ++ nl
  ++ utf8 "- Detect the user's language from their question" ++ nl
  ++ utf8 "- Use product names and descriptions in the response language only" ++ nl
  ++ nl
  ++ utf8 "RESPONSE GUIDELINES:" ++ nl
  ++ utf8 "1. Be accurate and factual - use only information from the product database" ++ nl
  ++ utf8 "2. For product listing: Provide comprehensive list of all products with clear formatting" ++ nl
  ++ utf8 "3. For pricing: Always include currency (USD) in the response" ++ nl
  ++ utf8 "4. For best seller: Calculate based on units_sold field" ++ nl
  ++ utf8 "5. For product details: Provide name, price, category, and description in the user's language" ++ nl
  ++ utf8 "6. If information is not in the database, say " ++ dq ++ utf8 "I don't have that information about our products" ++ dq ++ nl
  ++ utf8 "7. Format responses clearly with line breaks and bullet points when listing multiple items" ++ nl
  ++ nl
  ++ utf8 "OUT-OF-SCOPE REJECTION:" ++ nl
  ++ utf8 "- English: " ++ dq ++ utf8 "I can only provide information about our company's software products." ++ dq ++ nl
  ++ utf8 "- Arabic: " ++ dq ++ utf8 "يمكنني فقط تقديم معلومات عن منتجات شركتنا." ++ dq ++ nl
  ++ nl
  ++ utf8 "ROLE-BASED ACCESS (will be enforced separately):" ++ nl
  ++ utf8 "- All users can ask about products" ++ nl
  ++ utf8 "- Only staff can generate sales reports" ++ nl
  ++ nl
  ++ utf8 "Remember: " ++ nl
  ++ utf8 "1. Stay in scope" ++ nl
  ++ utf8 "2. Use ONLY the language of the user's question" ++ nl
  ++ utf8 "3. Keep responses well-formatted and clear".

(** [_create_system_prompt], over [self.products]. *)
Definition _create_system_prompt (ps : list Product) : str :=
  let products_context := _format_products_for_context ps in
  system_prompt_head ++ products_context ++ system_prompt_tail.

(** [__init__] once [_load_products] has returned [ps]; the connection to
    the hosted model is the oracle of the router. *)
Definition ProductChatbot_init (ps : list Product) (model_name : str)
  : ProductChatbot :=
  {| model := model_name;
     products := ps;
     user_role := CUSTOMER;
     conversation_history := [];
     attribute_policies := _build_attribute_policies;
     system_prompt := _create_system_prompt ps |}.

(** A new session: nothing sent, nothing printed. *)
Definition start (ps : list Product) (model_name : str) : World :=
  {| bot := ProductChatbot_init ps model_name; sent := []; stderr := [] |}.

(** The world with another instance. *)
Definition with_bot (w : World) (self : ProductChatbot) : World :=
  {| bot := self; sent := sent w; stderr := stderr w |}.

(* ================================================================== *)
(** ** Sessions *)

(** A transcript made of turns: a user entry alone (the turn failed) or a
    user entry followed by the assistant entry that answers it. *)
Inductive turns : list ChatMessage -> Prop :=
| turns_nil : turns []
| turns_unanswered (h : list ChatMessage) (question : str) :
    turns h -> turns (h ++ [{| role := user; content := question |}])
| turns_answered (h : list ChatMessage) (question answer : str) :
    turns h ->
    turns (h ++ [{| role := user; content := question |};
                 {| role := assistant; content := answer |}]).

Section Sessions.

Variable completions_create : list Request -> Request -> result str.
Variable now : str.

(** What a caller can do with a session: send a message, reset the
    conversation, set the role. *)
Inductive step (w : World) : World -> Prop :=
| step_message (user_message : str) :
    step w (snd (process_message completions_create now user_message w))
| step_reset :
    step w (snd (reset_conversation w))
| step_role (role : str) (self' : ProductChatbot) :
    fst (set_user_role role (bot w)) = Returned self' ->
    step w (with_bot w self').

(** The sessions a caller can reach from [w]. *)
Inductive reachable (w : World) : World -> Prop :=
| reachable_here : reachable w w
| reachable_step (w1 w2 : World) :
    reachable w w1 -> step w1 w2 -> reachable w w2.

End Sessions.

(** The [best_seller] of the staff analytics handler. *)
Definition best_seller_of (ps : list Product) : option Product :=
  match ps with
  | [] => None
  | p :: rest => Some (max_from p rest)
  end.

(** The best-seller answer of the handler, in the language asked for. *)
Definition best_seller_answer (self : ProductChatbot) (language : Language)
  : result str :=
  match language with
  | english => fmt_en_best (best_seller_of (products self))
  | arabic => fmt_ar_best (best_seller_of (products self))
  end.

(** The message asks for the full report. *)
Definition report_keywords : list str := [utf8 "report"; utf8 "analytics"].

(* ================================================================== *)
(** ** The chat page of [simple-ui.py] *)

(** [c.isspace()]: the characters [strip()] removes. *)
Definition isspace (c : Z) : bool :=
  ((0x09 <=? c) && (c <=? 0x0D)) || ((0x1C <=? c) && (c <=? 0x20))
  || (c =? 0x85) || (c =? 0xA0) || (c =? 0x1680)
  || ((0x2000 <=? c) && (c <=? 0x200A))
  || (c =? 0x2028) || (c =? 0x2029) || (c =? 0x202F) || (c =? 0x205F)
  || (c =? 0x3000).

(** [s.lstrip()] and [s.strip()]. *)
Fixpoint lstrip (s : str) : str :=
  match s with
  | [] => []
  | c :: s' => if isspace c then lstrip s' else s
  end.

Definition strip (s : str) : str := rev (lstrip (rev (lstrip s))).

(** [st.session_state] of a connected page: the chatbot, with what it has
    sent and printed, the messages shown, and the role selected on the
    page. *)
Record SessionState := {
  chatbot : World;
  messages : list ChatMessage;
  page_user_role : str
}.

(** The role radio: [st.session_state.user_role = role].  The chatbot is
    given the role only when it is created, in [load_chatbot]. *)
Definition select_role (role : str) (st : SessionState) : SessionState :=
  {| chatbot := chatbot st; messages := messages st; page_user_role := role |}.

Section ChatPage.

Variable completions_create : list Request -> Request -> result str.
Variable now : str.

(** The run of the page in which Send was pressed. *)
Definition send_pressed (user_input : str) (st : SessionState)
  : result unit * SessionState :=
  match strip user_input with
  | [] => (Returned tt, st)
  | _ :: _ =>
    let shown := messages st ++ [{| role := user; content := user_input |}] in
    match process_message completions_create now user_input (chatbot st) with
    | (Returned response, w') =>
      (Returned tt,
       {| chatbot := w';
          messages := shown ++ [{| role := assistant; content := response |}];
          page_user_role := page_user_role st |})
    | (Raised e, w') =>
      (Raised e,
       {| chatbot := w'; messages := shown;
          page_user_role := page_user_role st |})
    end
  end.

(** The run of the page in which Clear was pressed. *)
Definition clear_pressed (st : SessionState) : result unit * SessionState :=
  match reset_conversation (chatbot st) with
  | (Returned _, w') =>
    (Returned tt,
     {| chatbot := w'; messages := []; page_user_role := page_user_role st |})
  | (Raised e, w') =>
    (Raised e,
     {| chatbot := w'; messages := []; page_user_role := page_user_role st |})
  end.

(** The run of the page in which Generate Sales Report was pressed; the
    button is there when the role selected on the page is ["staff"]. *)
Definition report_pressed (st : SessionState) : result unit * SessionState :=
  if str_eqb (page_user_role st) (utf8 "staff") then
    match _generate_sales_report now (bot (chatbot st)) with
    | Returned response =>
      (Returned tt,
       {| chatbot := chatbot st;
          messages :=
            (messages st
             ++ [{| role := user; content := utf8 "Generate a sales report" |}])
            ++ [{| role := assistant; content := response |}];
          page_user_role := page_user_role st |})
    | Raised e => (Raised e, st)
    end
  else (Returned tt, st).

End ChatPage.

(** A character the language detector counts on neither side. *)
Definition plain_char (c : Z) : bool :=
  negb (counted_as_english c) && negb (in_arabic_block c).

(** Every line of [lines] is printed by the handler of a failed request. *)
Definition debug_lines (lines : list str) : Prop :=
  Forall (fun line => exists e, line = debug_line e) lines.

(* ================================================================== *)
(** ** Properties of the language detector *)

Lemma fold_left_add_shift (xs : list Z) (a : Z) :
  fold_left Z.add xs a = a + sum_of xs.
Proof.
  revert a; induction xs as [|x xs IH]; intros a; simpl.
  - lia.
  - rewrite IH. lia.
Qed.

Lemma py_sum_sum_of (xs : list Z) : py_sum xs = sum_of xs.
Proof. unfold py_sum. rewrite fold_left_add_shift. lia. Qed.

Lemma py_sum_ones (p : Z -> bool) (text : str) :
  py_sum (map (fun _ => 1) (filter p text)) = Z.of_nat (count_chars p text).
Proof.
  rewrite py_sum_sum_of. unfold count_chars.
  induction (filter p text) as [|c cs IH];
    cbn [map sum_of fold_right List.length].
  - reflexivity.
  - fold (sum_of (map (fun _ : Z => 1) cs)). rewrite IH. lia.
Qed.

Lemma is_arabic_char_block (c : Z) : is_arabic_char c = in_arabic_block c.
Proof. reflexivity. Qed.

(** Case analysis on every integer comparison of the goal; the cases that
    contradict the ones made before are closed at once. *)
Ltac split_comparisons :=
  repeat match goal with
  | |- context [?a <? ?b] => destruct (Z.ltb_spec a b); try (exfalso; lia)
  | |- context [?a <=? ?b] => destruct (Z.leb_spec a b); try (exfalso; lia)
  | |- context [?a =? ?b] => destruct (Z.eqb_spec a b); try (exfalso; lia)
  end.

(** Which characters pass ['a' <= char.lower() <= 'z']. *)
Lemma is_english_char_counted (c : Z) :
  is_english_char c = counted_as_english c.
Proof.
  unfold is_english_char, counted_as_english, ascii_letter, lower_char.
  change (utf8 "a") with [0x61]. change (utf8 "z") with [0x7A].
  repeat (split_comparisons; cbn [andb orb negb str_leb]);
    try reflexivity; exfalso; lia.
Qed.

Lemma filter_ext_eq {A} (p q : A -> bool) (l : list A) :
  (forall x, p x = q x) -> filter p l = filter q l.
Proof.
  intros E; induction l as [|a l IH]; simpl; [reflexivity|].
  rewrite E, IH. reflexivity.
Qed.

(** The detector compares two counts. *)
Lemma detect_language_counts (text : str) :
  detect_language text =
  if (count_chars counted_as_english text <? count_chars in_arabic_block text)%nat
  then arabic else english.
Proof.
  unfold detect_language.
  rewrite (filter_ext_eq is_english_char counted_as_english)
    by apply is_english_char_counted.
  rewrite !py_sum_ones.
  change (count_chars is_arabic_char text) with (count_chars in_arabic_block text).
  destruct (Nat.ltb_spec (count_chars counted_as_english text)
              (count_chars in_arabic_block text));
    destruct (Z.gtb_spec (Z.of_nat (count_chars in_arabic_block text))
                (Z.of_nat (count_chars counted_as_english text)));
    try reflexivity; lia.
Qed.

Example detect_english : detect_language (utf8 "What is the price?") = english.
Proof. reflexivity. Qed.

Example detect_arabic : detect_language (utf8 "ما هو السعر؟") = arabic.
Proof. reflexivity. Qed.

Example detect_empty : detect_language (utf8 "") = english.
Proof. reflexivity. Qed.

(** C6, as stated, fails: one Arabic letter followed by U+212A KELVIN SIGN
    holds one character of the Arabic block and no ASCII letter, yet the
    detector counts the Kelvin sign (its lowercase form is [k]) and, on the
    tie, answers English. *)
Lemma detect_language_not_ascii_only :
  ~ (detect_language [0x628; 0x212A] = arabic <->
     Nat.lt (count_chars ascii_letter [0x628; 0x212A])
       (count_chars in_arabic_block [0x628; 0x212A])).
Proof.
  intros [_ H].
  assert (E : detect_language [0x628; 0x212A] = english) by reflexivity.
  rewrite E in H.
  assert (C : english = arabic) by (apply H; vm_compute; lia).
  discriminate C.
Qed.

(** C6, amended: for every text the detector (a total function: it returns
    on every input) answers Arabic exactly when the characters of the
    Arabic block strictly outnumber the characters whose lowercase form
    lies between ["a"] and ["z"], which are the ASCII letters of either
    case, U+0130 and U+212A; it answers English otherwise, so on a tie and
    on the empty text. *)
Theorem detect_language_characterised (text : str) :
  (detect_language text = arabic <->
   (count_chars counted_as_english text < count_chars in_arabic_block text)%nat)
  /\ (detect_language text = english <->
      (count_chars in_arabic_block text <= count_chars counted_as_english text)%nat)
  /\ detect_language [] = english.
Proof.
  rewrite detect_language_counts.
  destruct (Nat.ltb_spec (count_chars counted_as_english text)
              (count_chars in_arabic_block text)) as [Hlt|Hge].
  - repeat split; intros; try reflexivity; try discriminate; try lia.
  - repeat split; intros; try reflexivity; try discriminate; try lia.
Qed.

(* ================================================================== *)
(** ** Properties of the two gates *)

Lemma mentions_existsb (kws : list str) (user_message : str) :
  mentions kws user_message <->
  existsb (fun keyword => contains (lower user_message) keyword) kws = true.
Proof.
  unfold mentions. rewrite existsb_exists. reflexivity.
Qed.

Lemma not_mentions_existsb (kws : list str) (user_message : str) :
  ~ mentions kws user_message <->
  existsb (fun keyword => contains (lower user_message) keyword) kws = false.
Proof.
  rewrite mentions_existsb. apply not_true_iff_false.
Qed.

Lemma if_truthy_some {A : Type} (s : str) (yes : str -> A) (no : A) :
  s <> [] -> if_truthy (Some s) yes no = yes s.
Proof. destruct s; [intros H; contradiction H; reflexivity | reflexivity]. Qed.

Lemma if_truthy_none {A : Type} (yes : str -> A) (no : A) :
  if_truthy None yes no = no.
Proof. reflexivity. Qed.

Lemma staff_only_rejection_nonempty (user_message : str) :
  staff_only_rejection user_message <> [].
Proof.
  unfold staff_only_rejection.
  destruct (detect_language user_message); vm_compute; discriminate.
Qed.

Lemma attribute_rejection_nonempty (user_message : str) :
  attribute_rejection user_message <> [].
Proof.
  unfold attribute_rejection.
  destruct (detect_language user_message); vm_compute; discriminate.
Qed.

Lemma check_staff_only_customer (self : ProductChatbot) (user_message : str) :
  user_role self = CUSTOMER ->
  mentions staff_keywords user_message ->
  _check_staff_only_request self user_message
  = Some (staff_only_rejection user_message).
Proof.
  intros Hrole Hkw. apply mentions_existsb in Hkw.
  unfold _check_staff_only_request, staff_only_rejection.
  rewrite Hkw, Hrole. cbn [UserRole_eqb andb].
  destruct (detect_language user_message); reflexivity.
Qed.

Lemma check_staff_only_unmatched (self : ProductChatbot) (user_message : str) :
  ~ mentions staff_keywords user_message ->
  _check_staff_only_request self user_message = None.
Proof.
  intros Hkw. apply not_mentions_existsb in Hkw.
  unfold _check_staff_only_request. rewrite Hkw. reflexivity.
Qed.

Lemma check_staff_only_staff (self : ProductChatbot) (user_message : str) :
  user_role self = STAFF ->
  _check_staff_only_request self user_message = None.
Proof.
  intros Hrole. unfold _check_staff_only_request. rewrite Hrole.
  cbn [UserRole_eqb]. rewrite andb_false_r. reflexivity.
Qed.

Lemma scan_policies_restricted (policies : list (str * Policy))
    (user_message : str) :
  mentions_restricted policies user_message ->
  scan_policies policies (lower user_message) user_message
  = Some (attribute_rejection user_message).
Proof.
  intros (attr & policy & Hin & Hso & Hkw).
  induction policies as [|[attr' policy'] rest IH]; [destruct Hin|].
  cbn [scan_policies].
  destruct (staff_only policy') eqn:Hso'; cbn [negb].
  - destruct (existsb _ (keywords policy')) eqn:Hhit.
    + unfold attribute_rejection.
      destruct (detect_language user_message); reflexivity.
    + destruct Hin as [Heq|Hin]; [|apply IH; exact Hin].
      injection Heq as -> ->.
      apply mentions_existsb in Hkw. rewrite Hkw in Hhit. discriminate.
  - destruct Hin as [Heq|Hin]; [|apply IH; exact Hin].
    injection Heq as -> ->. rewrite Hso in Hso'. discriminate.
Qed.

Lemma check_attribute_customer (self : ProductChatbot) (user_message : str) :
  user_role self = CUSTOMER ->
  mentions_restricted (attribute_policies self) user_message ->
  _check_attribute_access self user_message
  = Some (attribute_rejection user_message).
Proof.
  intros Hrole Hkw. unfold _check_attribute_access. rewrite Hrole.
  cbn [UserRole_eqb]. apply scan_policies_restricted. exact Hkw.
Qed.

Section RouterGates.

Variable completions_create : list Request -> Request -> result str.
Variable now : str.

Lemma bind_get_self {B : Type} (k : ProductChatbot -> M B) (w : World) :
  bind get_self k w = k (bot w) w.
Proof. reflexivity. Qed.

Lemma staff_topic_gate_fires (w : World) (user_message : str) :
  user_role (bot w) = CUSTOMER ->
  mentions staff_keywords user_message ->
  process_message completions_create now user_message w
  = (Returned (staff_only_rejection user_message), w).
Proof.
  intros Hrole Hkw.
  unfold process_message; cbv zeta. rewrite bind_get_self.
  rewrite (check_staff_only_customer _ _ Hrole Hkw).
  rewrite if_truthy_some by apply staff_only_rejection_nonempty.
  reflexivity.
Qed.

(** C1: a customer's message that mentions a staff topic is answered with
    the staff-only rejection, in Arabic when the message is detected as
    Arabic and in English otherwise; the world is left as it was, so no
    request went to the hosted model and the transcript is unchanged. *)
Theorem customer_staff_topic_rejected (w : World) (user_message : str) :
  user_role (bot w) = CUSTOMER ->
  mentions staff_keywords user_message ->
  process_message completions_create now user_message w
  = (Returned (staff_only_rejection user_message), w).
Proof. exact (staff_topic_gate_fires w user_message). Qed.

(** C2, amended: a customer's message that mentions a keyword of a
    staff-only attribute is always rejected without a request to the hosted
    model and without a change of the transcript.  The text is the
    attribute rejection when the message mentions no staff topic; when it
    also mentions one, the topic gate, which runs first, answers with the
    staff-only rejection instead. *)
Theorem customer_restricted_attribute_rejected (w : World) (user_message : str) :
  user_role (bot w) = CUSTOMER ->
  mentions_restricted (attribute_policies (bot w)) user_message ->
  (~ mentions staff_keywords user_message ->
   process_message completions_create now user_message w
   = (Returned (attribute_rejection user_message), w))
  /\ (mentions staff_keywords user_message ->
      process_message completions_create now user_message w
      = (Returned (staff_only_rejection user_message), w)).
Proof.
  intros Hrole Hattr. split; intros Htopic.
  - unfold process_message; cbv zeta. rewrite bind_get_self.
    rewrite (check_staff_only_unmatched _ _ Htopic), if_truthy_none.
    rewrite (check_attribute_customer _ _ Hrole Hattr).
    rewrite if_truthy_some by apply attribute_rejection_nonempty.
    reflexivity.
  - apply staff_topic_gate_fires; assumption.
Qed.

End RouterGates.

(* ================================================================== *)
(** ** The path through the hosted model *)

Lemma if_truthy_falls_through (o : option str) (b : bool) :
  if_truthy o (fun _ => false) b = true ->
  b = true /\ forall (A : Type) (yes : str -> A) (no : A), if_truthy o yes no = no.
Proof.
  destruct o as [[|c s]|]; cbn [if_truthy]; intros H;
    try discriminate H; split; auto.
Qed.

Lemma Language_eqb_eq (a b : Language) : Language_eqb a b = true <-> a = b.
Proof. destruct a, b; cbn; split; intros H; try reflexivity; discriminate H. Qed.

Lemma Language_eqb_neq (a b : Language) : Language_eqb a b = false <-> a <> b.
Proof.
  destruct a, b; cbn; split; intros H; try reflexivity; try discriminate H;
    try (intros C; discriminate C); contradiction H; reflexivity.
Qed.

Lemma bind_lift_returned {A B : Type} (a : A) (k : A -> M B) (w : World) :
  bind (lift (Returned a)) k w = k a w.
Proof. reflexivity. Qed.

Lemma bind_lift_raised {A B : Type} (e : exn) (k : A -> M B) (w : World) :
  bind (lift (Raised e)) k w = (Raised e, w).
Proof. reflexivity. Qed.

Section RouterModel.

Variable completions_create : list Request -> Request -> result str.
Variable now : str.

(** The run of [process_message] on a delegated message, case by case on
    what the hosted model does. *)
Lemma delegated_run (w : World) (user_message : str) :
  delegated (bot w) user_message = true ->
  let history := conversation_history (bot w) in
  let asked := {| role := user; content := user_message |} in
  let request1 := request_for (bot w) history user_message in
  let request2 := request_for (bot w) history (corrective_message user_message) in
  process_message completions_create now user_message w =
  match completions_create (sent w) request1 with
  | Raised e =>
    (Returned apology,
     {| bot := with_history (bot w) (history ++ [asked]);
        sent := sent w ++ [request1];
        stderr := stderr w ++ [debug_line e] |})
  | Returned reply1 =>
    if Language_eqb (detect_language reply1) (detect_language user_message)
    then
      (Returned reply1,
       {| bot := with_history (bot w)
                   (history ++ [asked; {| role := assistant; content := reply1 |}]);
          sent := sent w ++ [request1];
          stderr := stderr w |})
    else
      match completions_create (sent w ++ [request1]) request2 with
      | Raised e =>
        (Returned apology,
         {| bot := with_history (bot w) (history ++ [asked]);
            sent := sent w ++ [request1; request2];
            stderr := stderr w ++ [debug_line e] |})
      | Returned reply2 =>
        (Returned reply2,
         {| bot := with_history (bot w)
                     (history ++ [asked; {| role := assistant; content := reply2 |}]);
            sent := sent w ++ [request1; request2];
            stderr := stderr w |})
      end
  end.
Proof.
  intros Hdel history asked request1 request2.
  unfold delegated in Hdel.
  apply if_truthy_falls_through in Hdel as [Hdel Hgate1].
  apply if_truthy_falls_through in Hdel as [Hdel Hgate2].
  destruct (existsb _ [utf8 "report"; utf8 "analytics"]
            && UserRole_eqb (user_role (bot w)) STAFF) eqn:Hreport;
    [discriminate Hdel|].
  destruct (_handle_staff_analytics (bot w) user_message
              (detect_language user_message)) as [analytics_response|e]
    eqn:Hanalytics; [|discriminate Hdel].
  apply if_truthy_falls_through in Hdel as [_ Hgate3].
  unfold process_message; cbv zeta. rewrite bind_get_self.
  rewrite Hgate1, Hgate2, Hreport, Hanalytics, bind_lift_returned, Hgate3.
  subst history asked request1 request2.
  unfold request_for, corrective_message, with_history, debug_line.
  unfold bind, try_except, append_history, set_conversation_history,
    _get_ai_response, get_self, print_stderr, ret.
  cbn [bot sent stderr conversation_history model system_prompt products
       user_role attribute_policies].
  rewrite removelast_last.
  destruct (completions_create (sent w) _) as [reply1|e]; [|reflexivity].
  destruct (detect_language user_message); cbn [Language_eqb];
    destruct (detect_language reply1); cbn [Language_eqb negb];
    cbn [bot sent stderr conversation_history model system_prompt products
         user_role attribute_policies];
    rewrite <- ?app_assoc; cbn [app]; try reflexivity;
    destruct (completions_create _ _) as [reply2|e];
    rewrite <- ?app_assoc; reflexivity.
Qed.

End RouterModel.

Section RouterClaims.

Variable completions_create : list Request -> Request -> result str.
Variable now : str.

(** C3: when the first reply of the hosted model is detected in another
    language than the message, exactly one more request is sent.  It holds
    the system prompt and the transcript of before, as the first request
    does, and its user entry is the language-correction instruction, which
    asks for English only after an English message and for Arabic only
    after an Arabic one, followed by the message as the question.  Its
    reply is what [process_message] returns, and the transcript grows by
    the user entry and one assistant entry, which holds that second
    reply. *)
Theorem wrong_language_reply_corrected_once
    (w : World) (user_message reply1 reply2 : str) :
  let history := conversation_history (bot w) in
  let request1 :=
    {| rq_model := model (bot w);
       rq_messages :=
         {| role := system; content := system_prompt (bot w) |}
         :: history ++ [{| role := user; content := user_message |}] |} in
  let instruction :=
    match detect_language user_message with
    | english => utf8 "Respond ONLY in English. Do not include any Arabic. "
    | arabic => utf8 "أعد الإجابة باللغة العربية فقط ولا تستخدم الإنجليزية."
    end in
  let request2 :=
    {| rq_model := model (bot w);
       rq_messages :=
         {| role := system; content := system_prompt (bot w) |}
         :: history
         ++ [{| role := user;
                content := instruction ++ nl ++ utf8 "Question: "
                           ++ user_message |}] |} in
  delegated (bot w) user_message = true ->
  completions_create (sent w) request1 = Returned reply1 ->
  detect_language reply1 <> detect_language user_message ->
  completions_create (sent w ++ [request1]) request2 = Returned reply2 ->
  process_message completions_create now user_message w
  = (Returned reply2,
     {| bot := with_history (bot w)
                 (history ++ [{| role := user; content := user_message |};
                              {| role := assistant; content := reply2 |}]);
        sent := sent w ++ [request1; request2];
        stderr := stderr w |})
  /\ detect_language instruction = detect_language user_message.
Proof.
  intros history request1 instruction request2 Hdel H1 Hlang H2.
  assert (E1 : request_for (bot w) history user_message = request1)
    by reflexivity.
  assert (E2 : request_for (bot w) history (corrective_message user_message)
               = request2).
  { unfold request2, instruction, request_for, corrective_message.
    destruct (detect_language user_message); reflexivity. }
  split.
  - rewrite (delegated_run completions_create now w user_message Hdel).
    cbv zeta. fold history. rewrite E1, E2.
    rewrite H1. apply Language_eqb_neq in Hlang. rewrite Hlang.
    rewrite H2. reflexivity.
  - unfold instruction.
    destruct (detect_language user_message); vm_compute; reflexivity.
Qed.

(** C9: when a request to the hosted model fails, be it the first one or
    the corrective one, the apology is returned, and the transcript is the
    transcript of before followed by the user entry alone: no assistant
    entry is recorded for the turn. *)
Theorem failed_turn_leaves_unpaired_user_entry
    (w : World) (user_message : str) (e : exn) :
  let history := conversation_history (bot w) in
  let request1 := request_for (bot w) history user_message in
  let request2 := request_for (bot w) history (corrective_message user_message) in
  delegated (bot w) user_message = true ->
  (completions_create (sent w) request1 = Raised e
   \/ exists reply1,
        completions_create (sent w) request1 = Returned reply1 /\
        detect_language reply1 <> detect_language user_message /\
        completions_create (sent w ++ [request1]) request2 = Raised e) ->
  exists w',
    process_message completions_create now user_message w
    = (Returned apology, w') /\
    conversation_history (bot w')
    = history ++ [{| role := user; content := user_message |}].
Proof.
  intros history request1 request2 Hdel Hfail.
  rewrite (delegated_run completions_create now w user_message Hdel).
  cbv zeta. fold history. fold request1. fold request2.
  destruct Hfail as [H1|(reply1 & H1 & Hlang & H2)].
  - rewrite H1. eexists. split; reflexivity.
  - rewrite H1. apply Language_eqb_neq in Hlang. rewrite Hlang.
    rewrite H2. eexists. split; reflexivity.
Qed.

(** C7, at the failing input: a staff member asks for the report while the
    catalog is empty; the [ValueError] of [max] leaves [process_message],
    which runs the report outside its [try]. *)
Theorem staff_report_on_empty_catalog_escapes :
  process_message completions_create now (utf8 "report") (session [] STAFF)
  = (Raised (ValueError (utf8 "max() arg is an empty sequence")),
     session [] STAFF).
Proof. reflexivity. Qed.

(** C8: [reset_conversation] returns, empties the transcript and changes
    nothing else: the role, the catalog and every other field of the
    instance are as before, and so are the figures of
    [get_session_info] other than the message count, which is 0. *)
Theorem reset_conversation_clears_transcript_only (w : World) :
  exists w',
    reset_conversation w = (Returned tt, w') /\
    conversation_history (bot w') = [] /\
    List.length (conversation_history (bot w')) = 0%nat /\
    user_role (bot w') = user_role (bot w) /\
    products (bot w') = products (bot w) /\
    bot w' = with_history (bot w) [] /\
    exists info info',
      get_session_info w = (Returned info, w) /\
      get_session_info w' = (Returned info', w') /\
      messages_count info' = 0 /\
      info_role info' = info_role info /\
      products_available info' = products_available info.
Proof.
  eexists. split; [reflexivity|].
  cbn [bot conversation_history user_role products].
  repeat split.
  do 2 eexists. repeat split.
Qed.

End RouterClaims.

(* ================================================================== *)
(** ** Properties of the staff analytics handler *)

Lemma mentions_units_existsb (user_message : str) :
  mentions_units user_message <->
  existsb (fun pair => forallb (fun word => contains (lower user_message) word) pair)
    units_keywords = true.
Proof.
  unfold mentions_units. rewrite existsb_exists.
  split; intros (pair & Hin & Hall); exists pair; split; try exact Hin;
    apply forallb_forall; exact Hall.
Qed.

Lemma float_of_int_fits (z : Z) :
  fits_float z -> float_of_int z = Returned (nearest_double z).
Proof.
  unfold fits_float, float_of_int, nearest_double. cbv zeta. intros H.
  destruct (Z.leb_spec (2 ^ 1024) (round_to_double (Z.abs z))); [lia|].
  reflexivity.
Qed.

Lemma float_of_int_overflow (z : Z) :
  ~ fits_float z ->
  float_of_int z
  = Raised (OverflowError (utf8 "int too large to convert to float")).
Proof.
  unfold fits_float, float_of_int. cbv zeta. intros H.
  destruct (Z.leb_spec (2 ^ 1024) (round_to_double (Z.abs z))); [|lia].
  reflexivity.
Qed.

Lemma fmt_money_fits (z : Z) :
  fits_float z -> fmt_money z = Returned (money_text (nearest_double z)).
Proof.
  intros H. unfold fmt_money. rewrite (float_of_int_fits z H). reflexivity.
Qed.

Lemma fmt_money_overflow (z : Z) :
  ~ fits_float z ->
  fmt_money z = Raised (OverflowError (utf8 "int too large to convert to float")).
Proof.
  intros H. unfold fmt_money. rewrite (float_of_int_overflow z H). reflexivity.
Qed.

(** C10, as stated, fails: over a catalog whose total revenue is [10 ** 309]
    a staff message that mentions a revenue keyword and a best-seller
    keyword gets no answer at all, since formatting the total with [,.2f]
    raises [OverflowError]. *)
Lemma revenue_answer_overflows :
  user_role (bot (session huge_catalog STAFF)) = STAFF
  /\ mentions revenue_keywords (utf8 "revenue of the best seller")
  /\ mentions best_seller_keywords (utf8 "revenue of the best seller")
  /\ _handle_staff_analytics (bot (session huge_catalog STAFF))
       (utf8 "revenue of the best seller") english
     = Raised (OverflowError (utf8 "int too large to convert to float"))
  /\ forall answer,
       _handle_staff_analytics (bot (session huge_catalog STAFF))
         (utf8 "revenue of the best seller") english
       <> Returned (Some answer).
Proof.
  assert (H : _handle_staff_analytics (bot (session huge_catalog STAFF))
                (utf8 "revenue of the best seller") english
              = Raised (OverflowError (utf8 "int too large to convert to float")))
    by (vm_compute; reflexivity).
  split; [reflexivity|].
  split; [apply mentions_existsb; vm_compute; reflexivity|].
  split; [apply mentions_existsb; vm_compute; reflexivity|].
  split; [exact H|].
  intros answer Hanswer. rewrite H in Hanswer. discriminate Hanswer.
Qed.

(** C10, amended: the staff analytics handler tries the revenue keywords
    first, then the units pairs, then the best-seller keywords.  For a staff
    message that mentions a revenue keyword the revenue branch is the one
    taken, whatever else the message mentions: the revenue answer, with the
    total shown as the nearest float, is returned when the total revenue
    converts to a float, and the [OverflowError] of formatting it is raised
    otherwise.  A staff message that mentions no revenue keyword but both
    words of a units pair gets the units answer whatever best-seller
    keyword it holds. *)
Theorem staff_analytics_family_order
    (self : ProductChatbot) (user_message : str) (language : Language) :
  user_role self = STAFF ->
  (mentions revenue_keywords user_message ->
   _handle_staff_analytics self user_message language
   = answered (revenue_answer self language)
   /\ (fits_float (total_revenue_of (products self)) ->
       _handle_staff_analytics self user_message language
       = Returned
           (Some
              match language with
              | english =>
                utf8 "Total revenue: $"
                ++ money_text (nearest_double (total_revenue_of (products self)))
                ++ utf8 " USD."
              | arabic =>
                utf8 "إجمالي الإيرادات: $"
                ++ money_text (nearest_double (total_revenue_of (products self)))
                ++ utf8 " دولار أمريكي."
              end))
   /\ (~ fits_float (total_revenue_of (products self)) ->
       _handle_staff_analytics self user_message language
       = Raised (OverflowError (utf8 "int too large to convert to float"))))
  /\ (~ mentions revenue_keywords user_message ->
      mentions_units user_message ->
      _handle_staff_analytics self user_message language
      = Returned
          (Some
             match language with
             | english =>
               utf8 "Total units sold: "
               ++ fmt_int (total_units_of (products self)) ++ utf8 "."
             | arabic =>
               utf8 "إجمالي الوحدات المباعة: "
               ++ fmt_int (total_units_of (products self)) ++ utf8 "."
             end)).
Proof.
  intros Hrole. unfold _handle_staff_analytics. rewrite Hrole.
  cbn [UserRole_eqb negb]. cbv zeta. split.
  - intros Hrev. apply mentions_existsb in Hrev. rewrite Hrev.
    split; [destruct language; cbn [Language_eqb revenue_answer]; reflexivity|].
    split; intros Hfit.
    + destruct language; cbn [Language_eqb];
        unfold answered, fmt_en_revenue, fmt_ar_revenue;
        rewrite (fmt_money_fits _ Hfit); reflexivity.
    + destruct language; cbn [Language_eqb];
        unfold answered, fmt_en_revenue, fmt_ar_revenue;
        rewrite (fmt_money_overflow _ Hfit); reflexivity.
  - intros Hrev Hunits. apply not_mentions_existsb in Hrev.
    apply mentions_units_existsb in Hunits. rewrite Hrev, Hunits.
    destruct language; cbn [Language_eqb]; reflexivity.
Qed.

Lemma staff_analytics_family_order_witness :
  user_role (bot (session catalog3 STAFF)) = STAFF /\
  mentions revenue_keywords (utf8 "Revenue of the best seller?") /\
  mentions best_seller_keywords (utf8 "Revenue of the best seller?") /\
  fits_float (total_revenue_of (products (bot (session catalog3 STAFF)))) /\
  _handle_staff_analytics (bot (session catalog3 STAFF))
    (utf8 "Revenue of the best seller?") english
  = Returned (Some (utf8 "Total revenue: $2,150.00 USD.")) /\
  fits_float
    (total_revenue_of
       (products (bot (session [item "Ledger" (2 ^ 53 + 1) 1] STAFF)))) /\
  _handle_staff_analytics (bot (session [item "Ledger" (2 ^ 53 + 1) 1] STAFF))
    (utf8 "Revenue of the best seller?") english
  = Returned (Some (utf8 "Total revenue: $9,007,199,254,740,992.00 USD.")).
Proof.
  assert (H1 : user_role (bot (session catalog3 STAFF)) = STAFF) by reflexivity.
  assert (H2 : mentions revenue_keywords (utf8 "Revenue of the best seller?"))
    by (apply mentions_existsb; vm_compute; reflexivity).
  assert (H3 : mentions best_seller_keywords (utf8 "Revenue of the best seller?"))
    by (apply mentions_existsb; vm_compute; reflexivity).
  assert (H4 : fits_float (total_revenue_of (products (bot (session catalog3 STAFF)))))
    by (vm_compute; reflexivity).
  destruct (proj1 (staff_analytics_family_order
                     (bot (session catalog3 STAFF))
                     (utf8 "Revenue of the best seller?") english H1) H2)
    as (_ & H & _).
  assert (E : utf8 "Total revenue: $"
              ++ money_text
                   (nearest_double
                      (total_revenue_of (products (bot (session catalog3 STAFF)))))
              ++ utf8 " USD."
              = utf8 "Total revenue: $2,150.00 USD.")
    by (vm_compute; reflexivity).
  assert (H5 : user_role (bot (session [item "Ledger" (2 ^ 53 + 1) 1] STAFF))
               = STAFF) by reflexivity.
  assert (H6 : fits_float
                 (total_revenue_of
                    (products
                       (bot (session [item "Ledger" (2 ^ 53 + 1) 1] STAFF)))))
    by (vm_compute; reflexivity).
  destruct (proj1 (staff_analytics_family_order
                     (bot (session [item "Ledger" (2 ^ 53 + 1) 1] STAFF))
                     (utf8 "Revenue of the best seller?") english H5) H2)
    as (_ & H' & _).
  assert (E' : utf8 "Total revenue: $"
               ++ money_text
                    (nearest_double
                       (total_revenue_of
                          (products
                             (bot (session [item "Ledger" (2 ^ 53 + 1) 1] STAFF)))))
               ++ utf8 " USD."
               = utf8 "Total revenue: $9,007,199,254,740,992.00 USD.")
    by (vm_compute; reflexivity).
  split; [exact H1|]. split; [exact H2|]. split; [exact H3|]. split; [exact H4|].
  split; [rewrite <- E; exact (H H4)|].
  split; [exact H6|].
  rewrite <- E'. exact (H' H6).
Defined.

(** C4, at the failing input: on an empty catalog the staff analytics
    handler answers a best-seller question with the "no products" text of
    the language asked for, but the sales report raises the [ValueError] of
    [max]. *)
Theorem empty_catalog_report_raises (now : str) (r : UserRole) :
  _handle_staff_analytics (bot (session [] STAFF)) (utf8 "best seller") english
  = Returned (Some (utf8 "No products available."))
  /\ _handle_staff_analytics (bot (session [] STAFF)) (utf8 "أكثر منتج") arabic
     = Returned (Some (utf8 "لا توجد منتجات متاحة."))
  /\ _generate_sales_report now (bot (session [] r))
     = Raised (ValueError (utf8 "max() arg is an empty sequence")).
Proof.
  split; [vm_compute; reflexivity|].
  split; [vm_compute; reflexivity|].
  reflexivity.
Qed.

(* ================================================================== *)
(** ** Properties of the analytics engine *)

Lemma total_revenue_is_sum (ps : list Product) :
  total_revenue_of ps = sum_of (map (fun p => price p * units_sold p) ps).
Proof. unfold total_revenue_of. apply py_sum_sum_of. Qed.

Lemma total_units_is_sum (ps : list Product) :
  total_units_of ps = sum_of (map units_sold ps).
Proof. unfold total_units_of. apply py_sum_sum_of. Qed.

(** [max] returns a record of the list that no record outsells. *)
Lemma max_from_in (ps : list Product) (best : Product) :
  In (max_from best ps) (best :: ps).
Proof.
  revert best; induction ps as [|p ps IH]; intros best; cbn [max_from].
  - left; reflexivity.
  - destruct (IH (if units_sold p >? units_sold best then p else best))
      as [H|H].
    + destruct (units_sold p >? units_sold best);
        [right; left | left]; exact H.
    + right; right; exact H.
Qed.

Lemma max_from_upper (ps : list Product) (best : Product) :
  units_sold best <= units_sold (max_from best ps) /\
  Forall (fun p => units_sold p <= units_sold (max_from best ps)) ps.
Proof.
  revert best; induction ps as [|p ps IH]; intros best; cbn [max_from].
  - split; [lia | constructor].
  - destruct (IH (if units_sold p >? units_sold best then p else best))
      as [Hb Hall].
    destruct (Z.gtb_spec (units_sold p) (units_sold best)).
    + split; [lia | constructor; [exact Hb | exact Hall]].
    + split; [exact Hb | constructor; [lia | exact Hall]].
Qed.

Lemma insert_desc_perm (x : Product) (l : list Product) :
  Permutation (x :: l) (insert_desc x l).
Proof.
  induction l as [|y l IH]; cbn [insert_desc].
  - apply Permutation_refl.
  - destruct (units_sold y >? units_sold x).
    + apply perm_trans with (y :: x :: l); [apply perm_swap|].
      apply perm_skip. exact IH.
    + apply Permutation_refl.
Qed.

Lemma py_sorted_desc_perm (ps : list Product) :
  Permutation ps (py_sorted_desc ps).
Proof.
  induction ps as [|p ps IH]; cbn [py_sorted_desc].
  - apply perm_nil.
  - apply perm_trans with (p :: py_sorted_desc ps).
    + apply perm_skip. exact IH.
    + apply insert_desc_perm.
Qed.





Lemma startswith_app (p b : str) : startswith (p ++ b) p = true.
Proof.
  induction p as [|x p IH]; [destruct b; reflexivity|].
  cbn [app startswith]. rewrite Z.eqb_refl, IH. reflexivity.
Qed.

Lemma contains_unfold (s p : str) :
  contains s p =
  startswith s p || match s with [] => false | _ :: s' => contains s' p end.
Proof. destruct s; reflexivity. Qed.

Lemma contains_middle (a p b : str) : contains (a ++ p ++ b) p = true.
Proof.
  induction a as [|x a IH]; cbn [app].
  - rewrite contains_unfold, startswith_app. reflexivity.
  - rewrite contains_unfold, IH. apply orb_true_r.
Qed.

Lemma product_line_fits (p : Product) :
  fits_float (price p * units_sold p) ->
  product_line p
  = Returned
      (nl ++ utf8 "- " ++ name p ++ utf8 ": " ++ fmt_int (units_sold p)
          ++ utf8 " units ($"
          ++ money_text (nearest_double (price p * units_sold p)) ++ utf8 ")").
Proof.
  intros Hfit. unfold product_line. cbv zeta.
  rewrite (fmt_money_fits _ Hfit). reflexivity.
Qed.

Lemma report_lines_fit (ps : list Product) (report : str) :
  Forall (fun p => fits_float (price p * units_sold p)) ps ->
  fold_left
    (fun report product =>
       and_then report (fun report =>
       and_then (product_line product) (fun line =>
       Returned (report ++ line))))
    ps (Returned report)
  = Returned
      (report
       ++ List.concat
            (map (fun p =>
                    nl ++ utf8 "- " ++ name p ++ utf8 ": "
                       ++ fmt_int (units_sold p) ++ utf8 " units ($"
                       ++ money_text (nearest_double (price p * units_sold p))
                       ++ utf8 ")") ps)).
Proof.
  intros Hfit. revert report.
  induction Hfit as [|p ps Hp Hps IH]; intros report;
    cbn [fold_left map List.concat].
  - rewrite app_nil_r. reflexivity.
  - cbn [and_then]. rewrite (product_line_fits p Hp). cbn [and_then].
    rewrite IH, <- app_assoc. reflexivity.
Qed.


Lemma report_head_fits (now : str) (ps : list Product)
    (total_units total_revenue : Z) (best : Product) :
  fits_float total_revenue ->
  fits_float (price best * units_sold best) ->
  exists before after,
    report_head now ps total_units total_revenue best
    = Returned
        (before
         ++ (utf8 "- Total Products: " ++ fmt_int (Z.of_nat (List.length ps)) ++ nl)
         ++ (utf8 "- Total Units Sold: " ++ fmt_int total_units ++ nl)
         ++ (utf8 "- Total Revenue: $"
             ++ money_text (nearest_double total_revenue) ++ nl)
         ++ after).
Proof.
  intros Htotal Hbest. unfold report_head.
  rewrite (fmt_money_fits _ Htotal). cbn [and_then].
  rewrite (fmt_money_fits _ Hbest). cbn [and_then].
  exists (nl ++ utf8 "=== SALES REPORT ===" ++ nl
          ++ utf8 "Generated: " ++ now ++ nl ++ nl ++ utf8 "Summary:" ++ nl),
         (nl ++ utf8 "Top Performer:" ++ nl
          ++ utf8 "- Product: " ++ name best ++ nl
          ++ utf8 "- Units Sold: " ++ fmt_int (units_sold best) ++ nl
          ++ utf8 "- Revenue: $"
          ++ money_text (nearest_double (price best * units_sold best)) ++ nl
          ++ nl ++ utf8 "Products by Sales:" ++ nl).
  rewrite <- !app_assoc. reflexivity.
Qed.



Example catalog3_best_seller :
  py_max catalog3 = Returned (item "ERP" 20 50).
Proof. reflexivity. Qed.

Example catalog3_listing :
  map units_sold (py_sorted_desc catalog3) = [50; 30; 10].
Proof. reflexivity. Qed.

Example ties_keep_catalog_order :
  map name (py_sorted_desc [item "A" 1 7; item "B" 1 9; item "C" 1 7; item "D" 1 9])
  = map utf8 ["B"; "D"; "A"; "C"]%string.
Proof. reflexivity. Qed.

(* ================================================================== *)
(** ** The model of Python strings on examples *)

Example utf8_ascii : utf8 "a-z" = [0x61; 0x2D; 0x7A].
Proof. reflexivity. Qed.

Example utf8_arabic : utf8 "ما هو" = [0x645; 0x627; 0x20; 0x647; 0x648].
Proof. reflexivity. Qed.

Example contains_in : contains (utf8 "sales report") (utf8 "report") = true.
Proof. reflexivity. Qed.

Example lower_ascii : lower (utf8 "Units SOLD") = utf8 "units sold".
Proof. reflexivity. Qed.

Example lower_kelvin_sign : lower [0x212A] = utf8 "k".
Proof. reflexivity. Qed.

Example fmt_money_millions :
  fmt_money 1234567 = Returned (utf8 "1,234,567.00").
Proof. vm_compute. reflexivity. Qed.

Example fmt_money_small :
  fmt_money 0 = Returned (utf8 "0.00")
  /\ fmt_money 999 = Returned (utf8 "999.00")
  /\ fmt_money (-1000) = Returned (utf8 "-1,000.00")
  /\ fmt_int 1050 = utf8 "1050".
Proof.
  split; [vm_compute; reflexivity|]. split; [vm_compute; reflexivity|].
  split; vm_compute; reflexivity.
Qed.

(** Beyond 53 bits the amount shown is the nearest double, ties to even. *)
Example fmt_money_rounds :
  fmt_money (2 ^ 53 + 1) = Returned (utf8 "9,007,199,254,740,992.00")
  /\ fmt_money (2 ^ 53 + 2) = Returned (utf8 "9,007,199,254,740,994.00")
  /\ fmt_money (2 ^ 53 + 3) = Returned (utf8 "9,007,199,254,740,996.00")
  /\ fmt_money (- (2 ^ 53 + 1)) = Returned (utf8 "-9,007,199,254,740,992.00")
  /\ fmt_money (10 ^ 22) = Returned (utf8 "10,000,000,000,000,000,000,000.00")
  /\ fmt_money (10 ^ 23) = Returned (utf8 "99,999,999,999,999,991,611,392.00").
Proof.
  split; [vm_compute; reflexivity|]. split; [vm_compute; reflexivity|].
  split; [vm_compute; reflexivity|]. split; [vm_compute; reflexivity|].
  split; vm_compute; reflexivity.
Qed.

(** The greatest integer that converts, and the least that does not. *)
Example float_of_int_limit :
  float_of_int (2 ^ 1024 - 2 ^ 970 - 1) = Returned (2 ^ 1024 - 2 ^ 971)
  /\ float_of_int (2 ^ 1024 - 2 ^ 970)
     = Raised (OverflowError (utf8 "int too large to convert to float"))
  /\ fmt_money (10 ^ 309)
     = Raised (OverflowError (utf8 "int too large to convert to float")).
Proof.
  split; [vm_compute; reflexivity|]. split; vm_compute; reflexivity.
Qed.

(* ================================================================== *)
(** ** The router on concrete sessions *)

Lemma mentions_restricted_existsb (policies : list (str * Policy))
    (user_message : str) :
  mentions_restricted policies user_message <->
  existsb (fun entry =>
             staff_only (snd entry)
             && existsb (fun keyword => contains (lower user_message) keyword)
                  (keywords (snd entry)))
    policies = true.
Proof.
  unfold mentions_restricted. rewrite existsb_exists. split.
  - intros (attr & policy & Hin & Hso & Hkw). exists (attr, policy).
    split; [exact Hin|]. cbn [snd]. rewrite Hso.
    apply mentions_existsb in Hkw. rewrite Hkw. reflexivity.
  - intros ([attr policy] & Hin & Hboth). cbn [snd] in Hboth.
    apply andb_true_iff in Hboth as [Hso Hkw].
    exists attr, policy. split; [exact Hin|]. split; [exact Hso|].
    apply mentions_existsb. exact Hkw.
Qed.

Lemma customer_staff_topic_rejected_witness :
  user_role (bot (session catalog3 CUSTOMER)) = CUSTOMER /\
  mentions staff_keywords (utf8 "Sales report, please") /\
  process_message model_down [] (utf8 "Sales report, please")
    (session catalog3 CUSTOMER)
  = (Returned staff_only_en, session catalog3 CUSTOMER).
Proof.
  assert (H1 : user_role (bot (session catalog3 CUSTOMER)) = CUSTOMER)
    by reflexivity.
  assert (H2 : mentions staff_keywords (utf8 "Sales report, please"))
    by (apply mentions_existsb; vm_compute; reflexivity).
  pose proof (customer_staff_topic_rejected model_down []
                (session catalog3 CUSTOMER) (utf8 "Sales report, please") H1 H2)
    as H.
  assert (E : staff_only_rejection (utf8 "Sales report, please") = staff_only_en)
    by (vm_compute; reflexivity).
  split; [exact H1|]. split; [exact H2|].
  rewrite <- E. exact H.
Defined.

(** C2, as stated, fails: ["revenue"] is a keyword of the staff-only
    attribute [revenue] and a staff topic as well; the customer who sends it
    receives the staff-only rejection of the topic gate, which is another
    text than the attribute rejection. *)
Lemma revenue_question_gets_topic_rejection :
  user_role (bot (session catalog3 CUSTOMER)) = CUSTOMER /\
  mentions_restricted (attribute_policies (bot (session catalog3 CUSTOMER)))
    (utf8 "revenue") /\
  fst (process_message model_down [] (utf8 "revenue") (session catalog3 CUSTOMER))
  = Returned staff_only_en /\
  Returned staff_only_en <> Returned (attribute_rejection (utf8 "revenue")).
Proof.
  split; [reflexivity|].
  split; [apply mentions_restricted_existsb; vm_compute; reflexivity|].
  split; [vm_compute; reflexivity|].
  vm_compute. intros H. discriminate H.
Qed.

Lemma customer_restricted_attribute_rejected_witness :
  user_role (bot (session catalog3 CUSTOMER)) = CUSTOMER /\
  mentions_restricted (attribute_policies (bot (session catalog3 CUSTOMER)))
    (utf8 "How many units sold?") /\
  ~ mentions staff_keywords (utf8 "How many units sold?") /\
  process_message model_down [] (utf8 "How many units sold?")
    (session catalog3 CUSTOMER)
  = (Returned attribute_en, session catalog3 CUSTOMER).
Proof.
  assert (H1 : user_role (bot (session catalog3 CUSTOMER)) = CUSTOMER)
    by reflexivity.
  assert (H2 : mentions_restricted
                 (attribute_policies (bot (session catalog3 CUSTOMER)))
                 (utf8 "How many units sold?"))
    by (apply mentions_restricted_existsb; vm_compute; reflexivity).
  assert (H3 : ~ mentions staff_keywords (utf8 "How many units sold?"))
    by (apply not_mentions_existsb; vm_compute; reflexivity).
  pose proof (proj1 (customer_restricted_attribute_rejected model_down []
                       (session catalog3 CUSTOMER)
                       (utf8 "How many units sold?") H1 H2) H3) as H.
  assert (E : attribute_rejection (utf8 "How many units sold?") = attribute_en)
    by (vm_compute; reflexivity).
  split; [exact H1|]. split; [exact H2|]. split; [exact H3|].
  rewrite <- E. exact H.
Defined.

(** The apology is one English text, also after an Arabic question. *)
Example arabic_question_english_apology :
  fst (process_message model_down [] (utf8 "ما هو السعر؟")
         (session catalog3 CUSTOMER))
  = Returned apology
  /\ detect_language (utf8 "ما هو السعر؟") = arabic
  /\ detect_language apology = english.
Proof.
  split; [vm_compute; reflexivity|].
  split; vm_compute; reflexivity.
Qed.

Example arabic_units_question_rejected :
  process_message model_down [] (utf8 "كم عدد وحدات مباعة؟")
    (session catalog3 CUSTOMER)
  = (Returned attribute_ar, session catalog3 CUSTOMER).
Proof. vm_compute. reflexivity. Qed.

Lemma wrong_language_reply_corrected_once_witness :
  delegated (bot (session catalog3 CUSTOMER)) price_question = true /\
  detect_language reply_ar <> detect_language price_question /\
  process_message (scripted [reply_ar; reply_en]) [] price_question
    (session catalog3 CUSTOMER)
  = (Returned reply_en,
     {| bot := with_history (bot (session catalog3 CUSTOMER))
                 (conversation_history (bot (session catalog3 CUSTOMER))
                  ++ [{| role := user; content := price_question |};
                      {| role := assistant; content := reply_en |}]);
        sent :=
          sent (session catalog3 CUSTOMER)
          ++ [{| rq_model := model (bot (session catalog3 CUSTOMER));
                 rq_messages :=
                   {| role := system;
                      content := system_prompt (bot (session catalog3 CUSTOMER)) |}
                   :: conversation_history (bot (session catalog3 CUSTOMER))
                   ++ [{| role := user; content := price_question |}] |};
              {| rq_model := model (bot (session catalog3 CUSTOMER));
                 rq_messages :=
                   {| role := system;
                      content := system_prompt (bot (session catalog3 CUSTOMER)) |}
                   :: conversation_history (bot (session catalog3 CUSTOMER))
                   ++ [{| role := user;
                          content :=
                            utf8 "Respond ONLY in English. Do not include any Arabic. "
                            ++ nl ++ utf8 "Question: " ++ price_question |}] |}];
        stderr := stderr (session catalog3 CUSTOMER) |}).
Proof.
  assert (H1 : delegated (bot (session catalog3 CUSTOMER)) price_question = true)
    by (vm_compute; reflexivity).
  assert (H2 : detect_language reply_ar <> detect_language price_question)
    by (vm_compute; discriminate).
  assert (E : detect_language price_question = english)
    by (vm_compute; reflexivity).
  destruct (wrong_language_reply_corrected_once (scripted [reply_ar; reply_en])
              [] (session catalog3 CUSTOMER) price_question reply_ar reply_en
              H1 eq_refl H2 eq_refl) as [H _].
  rewrite E in H.
  split; [exact H1|]. split; [exact H2|].
  exact H.
Defined.

Lemma failed_turn_leaves_unpaired_user_entry_witness :
  delegated (bot (session catalog3 CUSTOMER)) price_question = true /\
  exists w',
    process_message model_down [] price_question (session catalog3 CUSTOMER)
    = (Returned apology, w') /\
    conversation_history (bot w')
    = [{| role := user; content := price_question |}].
Proof.
  assert (H1 : delegated (bot (session catalog3 CUSTOMER)) price_question = true)
    by (vm_compute; reflexivity).
  split; [exact H1|].
  exact (failed_turn_leaves_unpaired_user_entry model_down []
           (session catalog3 CUSTOMER) price_question
           (APIError (utf8 "Connection error.")) H1 (or_introl eq_refl)).
Defined.


Example catalog3_report :
  _generate_sales_report (utf8 "2025-01-01 09:00:00") (bot (session catalog3 STAFF))
  = Returned
      (nl ++ utf8 "=== SALES REPORT ===" ++ nl
       ++ utf8 "Generated: 2025-01-01 09:00:00" ++ nl ++ nl
       ++ utf8 "Summary:" ++ nl
       ++ utf8 "- Total Products: 3" ++ nl
       ++ utf8 "- Total Units Sold: 90" ++ nl
       ++ utf8 "- Total Revenue: $2,150.00" ++ nl ++ nl
       ++ utf8 "Top Performer:" ++ nl
       ++ utf8 "- Product: ERP" ++ nl
       ++ utf8 "- Units Sold: 50" ++ nl
       ++ utf8 "- Revenue: $1,000.00" ++ nl ++ nl
       ++ utf8 "Products by Sales:" ++ nl ++ nl
       ++ utf8 "- ERP: 50 units ($1,000.00)" ++ nl
       ++ utf8 "- HR: 30 units ($150.00)" ++ nl
       ++ utf8 "- CRM: 10 units ($1,000.00)").
Proof. vm_compute. reflexivity. Qed.

(* ================================================================== *)
(** ** Where [process_message] returns *)

Lemma generate_sales_report_returns (now : str) (self : ProductChatbot) :
  products self <> [] ->
  figures_fit (products self) ->
  exists report, _generate_sales_report now self = Returned report.
Proof.
  intros Hne (Htotal & _ & Hall). unfold _generate_sales_report.
  destruct (products self) as [|p ps]; [contradiction Hne; reflexivity|].
  cbn [py_max]. cbv zeta.
  assert (Hrev : Forall (fun q => fits_float (price q * units_sold q)) (p :: ps)).
  { apply Forall_impl with (2 := Hall). intros q [Hq _]. exact Hq. }
  assert (Hbest : fits_float (price (max_from p ps) * units_sold (max_from p ps))).
  { rewrite Forall_forall in Hrev. apply Hrev. apply max_from_in. }
  destruct (report_head_fits now (p :: ps) (total_units_of (p :: ps))
              (total_revenue_of (p :: ps)) (max_from p ps) Htotal Hbest)
    as (before & after & Hhead).
  rewrite Hhead.
  rewrite report_lines_fit
    by (apply (Permutation_Forall (py_sorted_desc_perm (p :: ps))); exact Hrev).
  eexists. reflexivity.
Qed.

Lemma handle_staff_analytics_returns (self : ProductChatbot)
    (user_message : str) (language : Language) :
  figures_fit (products self) ->
  exists answer,
    _handle_staff_analytics self user_message language = Returned answer.
Proof.
  intros (Htotal & _ & Hall). unfold _handle_staff_analytics. cbv zeta.
  destruct (negb (UserRole_eqb (user_role self) STAFF)); [eexists; reflexivity|].
  destruct (existsb _ revenue_keywords).
  { unfold answered, fmt_en_revenue, fmt_ar_revenue.
    rewrite (fmt_money_fits _ Htotal).
    destruct (Language_eqb language english); eexists; reflexivity. }
  destruct (existsb _ units_keywords); [eexists; reflexivity|].
  destruct (existsb _ best_seller_keywords); [|eexists; reflexivity].
  destruct (products self) as [|p ps].
  { destruct (Language_eqb language english); eexists; reflexivity. }
  assert (Hbest : fits_float (price (max_from p ps) * units_sold (max_from p ps))).
  { rewrite Forall_forall in Hall. apply Hall. apply max_from_in. }
  unfold answered, fmt_en_best, fmt_ar_best.
  rewrite (fmt_money_fits _ Hbest).
  destruct (Language_eqb language english); eexists; reflexivity.
Qed.

Section RouterTotal.

Variable completions_create : list Request -> Request -> result str.
Variable now : str.

(** Over a catalog that holds a record and whose figures all convert to a
    float, every path of [process_message] returns a text, whatever the
    hosted model does. *)
Lemma process_message_returns (w : World) (user_message : str) :
  products (bot w) <> [] ->
  figures_fit (products (bot w)) ->
  exists text w',
    process_message completions_create now user_message w = (Returned text, w').
Proof.
  intros Hne Hfit.
  destruct (delegated (bot w) user_message) eqn:Hdel.
  - rewrite (delegated_run completions_create now w user_message Hdel).
    cbv zeta.
    destruct (completions_create (sent w) _) as [reply1|e];
      [|do 2 eexists; reflexivity].
    destruct (Language_eqb _ _); [do 2 eexists; reflexivity|].
    destruct (completions_create _ _) as [reply2|e]; do 2 eexists; reflexivity.
  - unfold delegated in Hdel.
    destruct (handle_staff_analytics_returns (bot w) user_message
                (detect_language user_message) Hfit) as [answer Hanswer].
    rewrite Hanswer in Hdel.
    unfold process_message; cbv zeta. rewrite bind_get_self.
    destruct (_check_staff_only_request (bot w) user_message) as [[|c1 s1]|];
      cbn [if_truthy] in *; try (do 2 eexists; reflexivity);
      (destruct (_check_attribute_access (bot w) user_message) as [[|c2 s2]|];
       cbn [if_truthy] in *; try (do 2 eexists; reflexivity));
      (destruct (existsb _ [utf8 "report"; utf8 "analytics"]
                 && UserRole_eqb (user_role (bot w)) STAFF);
       [destruct (generate_sales_report_returns now (bot w) Hne Hfit)
          as [report Hr];
        unfold lift; rewrite Hr; do 2 eexists; reflexivity|]);
      (rewrite Hanswer, bind_lift_returned;
       destruct answer as [[|c3 s3]|];
       cbn [if_truthy] in *; try discriminate Hdel;
       do 2 eexists; reflexivity).
Qed.

End RouterTotal.

(* ================================================================== *)
(** ** What one message can change *)

Lemma check_attribute_staff (self : ProductChatbot) (user_message : str) :
  user_role self = STAFF ->
  _check_attribute_access self user_message = None.
Proof.
  intros Hrole. unfold _check_attribute_access. rewrite Hrole. reflexivity.
Qed.

Section RouterEffect.

Variable completions_create : list Request -> Request -> result str.
Variable now : str.

(** Every run of [process_message] is of one of three kinds: nothing is
    recorded and nothing is sent; the user entry and the answer returned
    are recorded, after no request (the analytics answer), one or two; or
    one or two requests were sent, the last one failed, the user entry
    alone is recorded and the apology is returned. *)
Lemma process_message_cases (w : World) (user_message : str) :
  let history := conversation_history (bot w) in
  let asked := {| role := user; content := user_message |} in
  exists r w',
    process_message completions_create now user_message w = (r, w') /\
    (w' = w
     \/ (exists requests answer,
           (List.length requests <= 2)%nat /\
           r = Returned answer /\
           w' = {| bot := with_history (bot w)
                            (history ++ [asked; {| role := assistant;
                                                   content := answer |}]);
                   sent := sent w ++ requests;
                   stderr := stderr w |})
     \/ (exists requests e,
           (1 <= List.length requests <= 2)%nat /\
           r = Returned apology /\
           w' = {| bot := with_history (bot w) (history ++ [asked]);
                   sent := sent w ++ requests;
                   stderr := stderr w ++ [debug_line e] |})).
Proof.
  intros history asked.
  destruct (delegated (bot w) user_message) eqn:Hdel.
  - rewrite (delegated_run completions_create now w user_message Hdel).
    cbv zeta. fold history. fold asked.
    destruct (completions_create (sent w) _) as [reply1|e].
    + destruct (Language_eqb _ _).
      * do 2 eexists. split; [reflexivity|]. right; left.
        eexists [_], _. split; [cbn; lia|]. split; reflexivity.
      * destruct (completions_create _ _) as [reply2|e].
        -- do 2 eexists. split; [reflexivity|]. right; left.
           eexists [_; _], _. split; [cbn; lia|]. split; reflexivity.
        -- do 2 eexists. split; [reflexivity|]. right; right.
           eexists [_; _], _. split; [cbn; lia|]. split; reflexivity.
    + do 2 eexists. split; [reflexivity|]. right; right.
      eexists [_], _. split; [cbn; lia|]. split; reflexivity.
  - unfold delegated in Hdel.
    unfold process_message; cbv zeta. rewrite bind_get_self.
    destruct (_check_staff_only_request (bot w) user_message) as [[|c1 s1]|];
      cbn [if_truthy] in *;
      try (do 2 eexists; split; [reflexivity|left; reflexivity]);
      (destruct (_check_attribute_access (bot w) user_message) as [[|c2 s2]|];
       cbn [if_truthy] in *;
       try (do 2 eexists; split; [reflexivity|left; reflexivity]));
      (destruct (existsb _ [utf8 "report"; utf8 "analytics"]
                 && UserRole_eqb (user_role (bot w)) STAFF);
       [do 2 eexists; split; [reflexivity|left; reflexivity]|]);
      (destruct (_handle_staff_analytics (bot w) user_message
                   (detect_language user_message)) as [[[|c3 s3]|]|e];
       [rewrite bind_lift_returned ..
       |rewrite bind_lift_raised;
        do 2 eexists; split; [reflexivity|left; reflexivity]];
       cbn [if_truthy] in *; try discriminate Hdel;
       do 2 eexists; (split; [reflexivity|]); right; left;
       exists [], (c3 :: s3); (split; [cbn; lia|]); (split; [reflexivity|]);
       unfold bind, append_history, set_conversation_history, ret;
       cbn [bot sent stderr conversation_history model system_prompt products
            user_role attribute_policies];
       unfold with_history; rewrite <- app_assoc, app_nil_r; reflexivity).
Qed.

End RouterEffect.

Lemma set_user_role_with_role (role : str) (self : ProductChatbot) :
  exists r, fst (set_user_role role self) = Returned (with_role self r).
Proof.
  unfold set_user_role.
  destruct (UserRole_of_value (lower role)) as [r|e] eqn:Hv.
  - exists r. reflexivity.
  - unfold UserRole_of_value in Hv.
    destruct (str_eqb _ (utf8 "customer")); [discriminate Hv|].
    destruct (str_eqb _ (utf8 "staff")); [discriminate Hv|].
    injection Hv as <-. exists CUSTOMER. reflexivity.
Qed.

Section SessionInvariants.

Variable completions_create : list Request -> Request -> result str.
Variable now : str.

(** X1: whatever the message and whatever the hosted model
    does, [process_message] changes neither the model name, the catalog,
    the role, the attribute policy nor the system prompt; it keeps every
    entry of the transcript and appends at most two; it sends at most two
    requests and prints at most one line. *)
Theorem process_message_frame (w : World) (user_message : str) :
  let w' := snd (process_message completions_create now user_message w) in
  model (bot w') = model (bot w)
  /\ products (bot w') = products (bot w)
  /\ user_role (bot w') = user_role (bot w)
  /\ attribute_policies (bot w') = attribute_policies (bot w)
  /\ system_prompt (bot w') = system_prompt (bot w)
  /\ (exists added,
        conversation_history (bot w') = conversation_history (bot w) ++ added
        /\ (List.length added <= 2)%nat)
  /\ (exists requests,
        sent w' = sent w ++ requests /\ (List.length requests <= 2)%nat)
  /\ (exists lines,
        stderr w' = stderr w ++ lines /\ (List.length lines <= 1)%nat).
Proof.
  destruct (process_message_cases completions_create now w user_message)
    as (r & w' & Hrun & Hcases).
  cbv zeta in *. rewrite Hrun. cbn [snd].
  destruct Hcases as [->|[(requests & answer & Hlen & _ & ->)
                         |(requests & e & Hlen & _ & ->)]];
    cbn [bot sent stderr with_history model products user_role
         attribute_policies system_prompt conversation_history].
  - repeat (split; [reflexivity|]).
    split; [exists []; rewrite app_nil_r; split; [reflexivity|cbn; lia]|].
    split; exists []; rewrite app_nil_r; (split; [reflexivity|cbn; lia]).
  - repeat (split; [reflexivity|]).
    split; [eexists; split; [reflexivity|cbn; lia]|].
    split; [exists requests; split; [reflexivity|exact Hlen]|].
    exists []; rewrite app_nil_r; split; [reflexivity|cbn; lia].
  - repeat (split; [reflexivity|]).
    split; [eexists; split; [reflexivity|cbn; lia]|].
    split; [exists requests; split; [reflexivity|lia]|].
    eexists; split; [reflexivity|cbn; lia].
Qed.

Lemma step_invariant (w1 w2 : World) :
  step completions_create now w1 w2 ->
  turns (conversation_history (bot w1)) ->
  turns (conversation_history (bot w2))
  /\ model (bot w2) = model (bot w1)
  /\ products (bot w2) = products (bot w1)
  /\ attribute_policies (bot w2) = attribute_policies (bot w1)
  /\ system_prompt (bot w2) = system_prompt (bot w1)
  /\ exists requests, sent w2 = sent w1 ++ requests.
Proof.
  intros Hstep Hturns. destruct Hstep as [user_message| |role self' Hset].
  - destruct (process_message_cases completions_create now w1 user_message)
      as (r & w' & Hrun & Hcases).
    cbv zeta in *. rewrite Hrun. cbn [snd].
    destruct Hcases as [->|[(requests & answer & _ & _ & ->)
                           |(requests & e & _ & _ & ->)]];
      cbn [bot sent stderr with_history model products user_role
           attribute_policies system_prompt conversation_history].
    + split; [exact Hturns|]. repeat (split; [reflexivity|]).
      exists []. rewrite app_nil_r. reflexivity.
    + split; [apply turns_answered; exact Hturns|].
      repeat (split; [reflexivity|]). exists requests. reflexivity.
    + split; [apply turns_unanswered; exact Hturns|].
      repeat (split; [reflexivity|]). exists requests. reflexivity.
  - cbn. split; [apply turns_nil|]. repeat (split; [reflexivity|]).
    exists []. rewrite app_nil_r. reflexivity.
  - destruct (set_user_role_with_role role (bot w1)) as [r Hr].
    rewrite Hr in Hset. injection Hset as <-.
    cbn. split; [exact Hturns|]. repeat (split; [reflexivity|]).
    exists []. rewrite app_nil_r. reflexivity.
Qed.

(** X2: from a session whose transcript is made of turns
    (the empty transcript of a new session is), every session a caller can
    reach by sending messages, resetting the conversation and setting the
    role has a transcript made of turns, each a user entry alone or a user
    entry followed by its assistant entry; the catalog, the attribute
    policy, the system prompt and the model name are those of the start,
    and no request logged is ever taken back. *)
Theorem reachable_session_invariant (w0 w : World) :
  turns (conversation_history (bot w0)) ->
  reachable completions_create now w0 w ->
  turns (conversation_history (bot w))
  /\ model (bot w) = model (bot w0)
  /\ products (bot w) = products (bot w0)
  /\ attribute_policies (bot w) = attribute_policies (bot w0)
  /\ system_prompt (bot w) = system_prompt (bot w0)
  /\ exists requests, sent w = sent w0 ++ requests.
Proof.
  intros Hturns Hreach.
  induction Hreach as [|w1 w2 Hreach IH Hstep].
  - split; [exact Hturns|]. repeat (split; [reflexivity|]).
    exists []. rewrite app_nil_r. reflexivity.
  - destruct IH as (Ht & Hm & Hp & Ha & Hs & requests & Hsent).
    destruct (step_invariant w1 w2 Hstep Ht)
      as (Ht' & Hm' & Hp' & Ha' & Hs' & requests' & Hsent').
    split; [exact Ht'|].
    split; [congruence|]. split; [congruence|].
    split; [congruence|]. split; [congruence|].
    exists (requests ++ requests'). rewrite Hsent', Hsent, app_assoc.
    reflexivity.
Qed.

End SessionInvariants.

(* ================================================================== *)
(** ** Which messages pass the gates *)

Lemma scan_policies_unrestricted (policies : list (str * Policy))
    (user_message : str) :
  ~ mentions_restricted policies user_message ->
  scan_policies policies (lower user_message) user_message = None.
Proof.
  induction policies as [|[attr policy] rest IH]; intros Hno;
    cbn [scan_policies]; [reflexivity|].
  assert (Hrest : ~ mentions_restricted rest user_message).
  { intros (a & p & Hin & Hso & Hkw). apply Hno.
    exists a, p. split; [right; exact Hin|]. split; assumption. }
  destruct (staff_only policy) eqn:Hso; cbn [negb]; [|apply IH; exact Hrest].
  destruct (existsb _ (keywords policy)) eqn:Hhit; [|apply IH; exact Hrest].
  exfalso. apply Hno. exists attr, policy.
  split; [left; reflexivity|]. split; [exact Hso|].
  apply mentions_existsb. exact Hhit.
Qed.

Lemma mentions_dec (kws : list str) (user_message : str) :
  mentions kws user_message \/ ~ mentions kws user_message.
Proof.
  destruct (existsb (fun keyword => contains (lower user_message) keyword) kws)
    eqn:E.
  - left. apply mentions_existsb. exact E.
  - right. apply not_mentions_existsb. exact E.
Qed.

Lemma mentions_restricted_dec (policies : list (str * Policy))
    (user_message : str) :
  mentions_restricted policies user_message
  \/ ~ mentions_restricted policies user_message.
Proof.
  destruct (existsb (fun entry =>
                       staff_only (snd entry)
                       && existsb (fun keyword =>
                                     contains (lower user_message) keyword)
                            (keywords (snd entry))) policies) eqn:E.
  - left. apply mentions_restricted_existsb. exact E.
  - right. intros H. apply mentions_restricted_existsb in H.
    rewrite H in E. discriminate E.
Qed.

(** X3: each gate lets a message through exactly when the role is
    staff or the message mentions none of its keywords: the topic gate
    looks at the staff topics, the attribute gate at the keywords of the
    staff-only entries of the policy.  Staff is never rejected. *)
Theorem gates_pass_exactly (self : ProductChatbot) (user_message : str) :
  (_check_staff_only_request self user_message = None <->
   user_role self = STAFF \/ ~ mentions staff_keywords user_message)
  /\ (_check_attribute_access self user_message = None <->
      user_role self = STAFF
      \/ ~ mentions_restricted (attribute_policies self) user_message).
Proof.
  split; split.
  - intros Hnone.
    destruct (user_role self) eqn:Hrole; [|left; reflexivity].
    right. intros Hkw.
    rewrite (check_staff_only_customer _ _ Hrole Hkw) in Hnone.
    discriminate Hnone.
  - intros [Hrole|Hkw].
    + apply check_staff_only_staff. exact Hrole.
    + apply check_staff_only_unmatched. exact Hkw.
  - intros Hnone.
    destruct (user_role self) eqn:Hrole; [|left; reflexivity].
    right. intros Hkw.
    rewrite (check_attribute_customer _ _ Hrole Hkw) in Hnone.
    discriminate Hnone.
  - intros [Hrole|Hkw].
    + apply check_attribute_staff. exact Hrole.
    + unfold _check_attribute_access.
      destruct (UserRole_eqb (user_role self) STAFF); [reflexivity|].
      apply scan_policies_unrestricted. exact Hkw.
Qed.

Lemma handle_staff_analytics_customer (self : ProductChatbot)
    (user_message : str) (language : Language) :
  user_role self = CUSTOMER ->
  _handle_staff_analytics self user_message language = Returned None.
Proof.
  intros Hrole. unfold _handle_staff_analytics. rewrite Hrole. reflexivity.
Qed.

Section CustomerRouting.

Variable completions_create : list Request -> Request -> result str.
Variable now : str.

(** X4: in a customer session the staff analytics handler has no
    answer, whatever the message; a message goes to the hosted model
    exactly when it mentions no staff topic and no keyword of a staff-only
    attribute, and every other message is answered by one of the two
    rejections with the session left as it was.  So neither the sales
    report nor a deterministic analytics answer is ever returned to a
    customer. *)
Theorem customer_routing (w : World) (user_message : str) :
  user_role (bot w) = CUSTOMER ->
  (forall language,
     _handle_staff_analytics (bot w) user_message language = Returned None)
  /\ (delegated (bot w) user_message = true <->
      ~ mentions staff_keywords user_message
      /\ ~ mentions_restricted (attribute_policies (bot w)) user_message)
  /\ (delegated (bot w) user_message = false ->
      process_message completions_create now user_message w
      = (Returned (staff_only_rejection user_message), w)
      \/ process_message completions_create now user_message w
         = (Returned (attribute_rejection user_message), w)).
Proof.
  intros Hrole.
  assert (Hana : forall language,
             _handle_staff_analytics (bot w) user_message language
             = Returned None)
    by (intros language; apply handle_staff_analytics_customer; exact Hrole).
  split; [exact Hana|].
  destruct (mentions_dec staff_keywords user_message) as [Htopic|Htopic].
  - assert (Hdel : delegated (bot w) user_message = false).
    { unfold delegated.
      rewrite (check_staff_only_customer _ _ Hrole Htopic).
      rewrite if_truthy_some by apply staff_only_rejection_nonempty.
      reflexivity. }
    split.
    + rewrite Hdel. split; [intros H; discriminate H|].
      intros [H _]. contradiction (H Htopic).
    + intros _. left. apply staff_topic_gate_fires; assumption.
  - destruct (mentions_restricted_dec (attribute_policies (bot w)) user_message)
      as [Hattr|Hattr].
    + assert (Hdel : delegated (bot w) user_message = false).
      { unfold delegated.
        rewrite (check_staff_only_unmatched _ _ Htopic), if_truthy_none.
        rewrite (check_attribute_customer _ _ Hrole Hattr).
        rewrite if_truthy_some by apply attribute_rejection_nonempty.
        reflexivity. }
      split.
      * rewrite Hdel. split; [intros H; discriminate H|].
        intros [_ H]. contradiction (H Hattr).
      * intros _. right.
        unfold process_message; cbv zeta. rewrite bind_get_self.
        rewrite (check_staff_only_unmatched _ _ Htopic), if_truthy_none.
        rewrite (check_attribute_customer _ _ Hrole Hattr).
        rewrite if_truthy_some by apply attribute_rejection_nonempty.
        reflexivity.
    + assert (Hdel : delegated (bot w) user_message = true).
      { unfold delegated.
        rewrite (check_staff_only_unmatched _ _ Htopic), if_truthy_none.
        unfold _check_attribute_access. rewrite Hrole. cbn [UserRole_eqb].
        rewrite (scan_policies_unrestricted _ _ Hattr), if_truthy_none.
        rewrite andb_false_r. rewrite Hana. reflexivity. }
      split.
      * rewrite Hdel. split; [intros _; split; assumption|reflexivity].
      * intros H. rewrite Hdel in H. discriminate H.
Qed.

End CustomerRouting.

(* ================================================================== *)
(** ** The answers given to staff *)

Lemma literal_app_nonempty (c : Z) (s t : str) : (c :: s) ++ t <> [].
Proof. cbn [app]. discriminate. Qed.

(** A text that opens with a literal of the source is not empty. *)
Ltac opens_with_literal :=
  match goal with
  | |- utf8 ?lit ++ _ <> [] =>
    let E := fresh "E" in
    destruct (utf8 lit) eqn:E;
    [vm_compute in E; discriminate E | apply literal_app_nonempty]
  | |- utf8 ?lit <> [] => vm_compute; discriminate
  end.

Lemma Returned_inj {A : Type} (a b : A) : Returned a = Returned b -> a = b.
Proof. intros H. injection H as ->. reflexivity. Qed.

Lemma and_then_returned {A B : Type} (r : result A) (k : A -> result B)
    (b : B) :
  and_then r k = Returned b -> exists a, r = Returned a /\ k a = Returned b.
Proof.
  destruct r as [a|e]; cbn [and_then]; intros H; [|discriminate H].
  exists a. auto.
Qed.

Lemma answered_some (text : result str) (answer : option str) :
  answered text = Returned answer ->
  exists t, text = Returned t /\ answer = Some t.
Proof.
  unfold answered. destruct text as [t|e]; cbn [and_then]; intros H;
    [injection H as <-; exists t; auto|discriminate H].
Qed.

Lemma fmt_money_returned (z : Z) (text : str) :
  fmt_money z = Returned text ->
  fits_float z /\ text = money_text (nearest_double z).
Proof.
  unfold fmt_money, float_of_int, fits_float, nearest_double. cbv zeta.
  destruct (Z.leb_spec (2 ^ 1024) (round_to_double (Z.abs z))) as [Hbig|Hfit];
    cbn [and_then]; intros H; [discriminate H|].
  injection H as <-. split; [exact Hfit|reflexivity].
Qed.

Lemma handle_staff_analytics_nonempty (self : ProductChatbot)
    (user_message answer : str) (language : Language) :
  _handle_staff_analytics self user_message language = Returned (Some answer) ->
  answer <> [].
Proof.
  unfold _handle_staff_analytics.
  destruct (negb (UserRole_eqb (user_role self) STAFF)); [discriminate|].
  cbv zeta.
  destruct (existsb _ revenue_keywords).
  { intros H. apply answered_some in H. destruct H as (t & Ht & E).
    injection E as ->.
    destruct (Language_eqb language english);
      apply and_then_returned in Ht; destruct Ht as (amount & _ & Ht);
      cbn beta in Ht; injection Ht as <-;
      first [discriminate | opens_with_literal]. }
  destruct (existsb _ units_keywords).
  { intros H; injection H as <-.
    destruct (Language_eqb language english);
      unfold fmt_en_units, fmt_ar_units; opens_with_literal. }
  destruct (existsb _ best_seller_keywords); [|discriminate].
  intros H. apply answered_some in H. destruct H as (t & Ht & E).
  injection E as ->.
  destruct (Language_eqb language english), (products self);
    unfold fmt_en_best, fmt_ar_best in Ht;
    try (apply and_then_returned in Ht; destruct Ht as (amount & _ & Ht));
    cbn beta in Ht; injection Ht as <-;
      first [discriminate | opens_with_literal].
Qed.

Lemma handle_staff_analytics_none (self : ProductChatbot)
    (user_message : str) (language : Language) :
  user_role self = STAFF ->
  (_handle_staff_analytics self user_message language = Returned None <->
   ~ mentions revenue_keywords user_message
   /\ ~ mentions_units user_message
   /\ ~ mentions best_seller_keywords user_message).
Proof.
  intros Hrole. unfold _handle_staff_analytics. rewrite Hrole.
  cbn [UserRole_eqb negb]. cbv zeta.
  rewrite !not_mentions_existsb.
  assert (Hunits : ~ mentions_units user_message <->
                   existsb (fun pair =>
                              forallb (fun word =>
                                         contains (lower user_message) word) pair)
                     units_keywords = false).
  { rewrite mentions_units_existsb. apply not_true_iff_false. }
  rewrite Hunits.
  assert (Hanswered : forall text, answered text <> Returned None).
  { intros text H. apply answered_some in H.
    destruct H as (t & _ & E). discriminate E. }
  destruct (existsb _ revenue_keywords).
  { split; [intros H; contradiction (Hanswered _ H)
           |intros [H _]; discriminate H]. }
  destruct (existsb _ units_keywords);
    [split; [discriminate|intros (_ & H & _); discriminate H]|].
  destruct (existsb _ best_seller_keywords).
  - split; [intros H; contradiction (Hanswered _ H)
           |intros (_ & _ & H); discriminate H].
  - split; [intros _; repeat split|reflexivity].
Qed.

(** X6: for staff the analytics handler returns no answer exactly when
    the message mentions no revenue keyword, no units pair and no
    best-seller keyword.  A message that mentions only a best-seller
    keyword is answered by the best-seller branch: over the empty catalog
    with the "no products" text of the language asked for; otherwise with
    the name (the Arabic one in Arabic), the units sold and the revenue, as
    the nearest float, of the best seller when that revenue converts to a
    float, and with the [OverflowError] of formatting it when it does
    not. *)
Theorem staff_analytics_answers
    (self : ProductChatbot) (user_message : str) (language : Language) :
  user_role self = STAFF ->
  (_handle_staff_analytics self user_message language = Returned None <->
   ~ mentions revenue_keywords user_message
   /\ ~ mentions_units user_message
   /\ ~ mentions best_seller_keywords user_message)
  /\ (~ mentions revenue_keywords user_message ->
      ~ mentions_units user_message ->
      mentions best_seller_keywords user_message ->
      match best_seller_of (products self) with
      | None =>
        _handle_staff_analytics self user_message language
        = Returned
            (Some
               match language with
               | english => utf8 "No products available."
               | arabic => utf8 "لا توجد منتجات متاحة."
               end)
      | Some best =>
        (fits_float (price best * units_sold best) ->
         _handle_staff_analytics self user_message language
         = Returned
             (Some
                match language with
                | english =>
                  utf8 "Best seller: " ++ name best ++ utf8 " — "
                  ++ fmt_int (units_sold best) ++ utf8 " units ($"
                  ++ money_text (nearest_double (price best * units_sold best))
                  ++ utf8 ")."
                | arabic =>
                  utf8 "أفضل منتج مبيعاً: " ++ name_ar best ++ utf8 " — "
                  ++ fmt_int (units_sold best) ++ utf8 " وحدة ($"
                  ++ money_text (nearest_double (price best * units_sold best))
                  ++ utf8 ")."
                end))
        /\ (~ fits_float (price best * units_sold best) ->
            _handle_staff_analytics self user_message language
            = Raised (OverflowError (utf8 "int too large to convert to float")))
      end).
Proof.
  intros Hrole. split; [apply handle_staff_analytics_none; exact Hrole|].
  intros Hrev Hunits Hbest.
  apply not_mentions_existsb in Hrev. apply mentions_existsb in Hbest.
  assert (Hu : existsb (fun pair =>
                          forallb (fun word =>
                                     contains (lower user_message) word) pair)
                 units_keywords = false).
  { apply not_true_iff_false. intros H. apply Hunits.
    apply mentions_units_existsb. exact H. }
  unfold _handle_staff_analytics. rewrite Hrole.
  cbn [UserRole_eqb negb]. cbv zeta. rewrite Hrev, Hu, Hbest.
  unfold best_seller_of.
  destruct (products self) as [|p ps].
  - destruct language; reflexivity.
  - assert (Eu : utf8 " units " ++ utf8 "($" = utf8 " units ($")
      by (vm_compute; reflexivity).
    assert (Ew : utf8 " وحدة " ++ utf8 "($" = utf8 " وحدة ($")
      by (vm_compute; reflexivity).
    split; intros Hfit.
    + destruct language; cbn [Language_eqb];
        unfold answered, fmt_en_best, fmt_ar_best;
        rewrite (fmt_money_fits _ Hfit); cbn [and_then];
        [rewrite <- Eu|rewrite <- Ew]; rewrite <- !app_assoc; reflexivity.
    + destruct language; cbn [Language_eqb];
        unfold answered, fmt_en_best, fmt_ar_best;
        rewrite (fmt_money_overflow _ Hfit); reflexivity.
Qed.

Lemma max_from_first (ps pre mid : list Product) (best : Product) :
  Forall (fun q => units_sold q < units_sold best) pre ->
  Forall (fun q => units_sold q <= units_sold best) mid ->
  exists l1 l2,
    pre ++ best :: mid ++ ps = l1 ++ max_from best ps :: l2 /\
    Forall (fun q => units_sold q < units_sold (max_from best ps)) l1 /\
    Forall (fun q => units_sold q <= units_sold (max_from best ps)) l2.
Proof.
  revert pre mid best.
  induction ps as [|p ps IH]; intros pre mid best Hpre Hmid; cbn [max_from].
  - exists pre, mid. rewrite app_nil_r. auto.
  - destruct (Z.gtb_spec (units_sold p) (units_sold best)) as [Hgt|Hle].
    + destruct (IH (pre ++ best :: mid) [] p) as (l1 & l2 & Heq & H1 & H2).
      * apply Forall_app. split.
        -- apply Forall_impl with (2 := Hpre). intros q Hq. cbn beta in *. lia.
        -- constructor; [lia|].
           apply Forall_impl with (2 := Hmid). intros q Hq. cbn beta in *. lia.
      * constructor.
      * exists l1, l2. split; [|auto].
        rewrite <- Heq. rewrite <- app_assoc. reflexivity.
    + destruct (IH pre (mid ++ [p]) best) as (l1 & l2 & Heq & H1 & H2).
      * exact Hpre.
      * apply Forall_app. split; [exact Hmid|]. constructor; [lia|constructor].
      * exists l1, l2. split; [|auto].
        rewrite <- Heq. rewrite <- app_assoc. reflexivity.
Qed.

Lemma report_lines_returned (ps : list Product) (start : result str)
    (report : str) :
  fold_left
    (fun report product =>
       and_then report (fun report =>
       and_then (product_line product) (fun line =>
       Returned (report ++ line))))
    ps start
  = Returned report ->
  exists head lines, start = Returned head /\ report = head ++ lines.
Proof.
  revert start. induction ps as [|p ps IH]; intros start; cbn [fold_left].
  - intros ->. exists report, []. rewrite app_nil_r. auto.
  - intros H. apply IH in H. destruct H as (head' & lines' & Hstep & ->).
    apply and_then_returned in Hstep. destruct Hstep as (head & -> & Hstep).
    apply and_then_returned in Hstep. destruct Hstep as (line & _ & Hstep).
    cbn beta in Hstep. apply Returned_inj in Hstep. subst head'.
    exists head, (line ++ lines'). rewrite <- app_assoc. auto.
Qed.

(** X7: over a catalog that holds a record, the best seller named by the
    sales report and by the best-seller answer is one and the same record
    of the catalog: the first one that sold the greatest number of units
    (every record before it sold strictly less, no record after it sold
    more).  Whenever the report is generated, it opens with the heading,
    the three totals and the name, the units sold and the revenue of that
    record under [Top Performer:], before the lines of the products. *)
Theorem best_seller_is_first_maximum (now : str) (self : ProductChatbot) :
  products self <> [] ->
  exists best l1 l2,
    products self = l1 ++ best :: l2
    /\ Forall (fun q => units_sold q < units_sold best) l1
    /\ Forall (fun q => units_sold q <= units_sold best) l2
    /\ best_seller_of (products self) = Some best
    /\ forall report,
         _generate_sales_report now self = Returned report ->
         exists lines,
           report
           = nl ++ utf8 "=== SALES REPORT ===" ++ nl
             ++ utf8 "Generated: " ++ now ++ nl
             ++ nl
             ++ utf8 "Summary:" ++ nl
             ++ utf8 "- Total Products: "
             ++ fmt_int (Z.of_nat (List.length (products self))) ++ nl
             ++ utf8 "- Total Units Sold: "
             ++ fmt_int (sum_of (map units_sold (products self))) ++ nl
             ++ utf8 "- Total Revenue: $"
             ++ money_text
                  (nearest_double
                     (sum_of (map (fun p => price p * units_sold p)
                                (products self)))) ++ nl
             ++ nl
             ++ utf8 "Top Performer:" ++ nl
             ++ utf8 "- Product: " ++ name best ++ nl
             ++ utf8 "- Units Sold: " ++ fmt_int (units_sold best) ++ nl
             ++ utf8 "- Revenue: $"
             ++ money_text (nearest_double (price best * units_sold best)) ++ nl
             ++ nl
             ++ utf8 "Products by Sales:" ++ nl
             ++ lines.
Proof.
  intros Hne. unfold _generate_sales_report, best_seller_of.
  rewrite <- total_revenue_is_sum, <- total_units_is_sum.
  destruct (products self) as [|p ps] eqn:Hps; [contradiction Hne; reflexivity|].
  destruct (max_from_first ps [] [] p) as (l1 & l2 & Heq & H1 & H2);
    [constructor|constructor|].
  exists (max_from p ps), l1, l2.
  split; [exact Heq|]. split; [exact H1|]. split; [exact H2|].
  split; [reflexivity|].
  cbn [py_max]. cbv zeta. intros report Hreport.
  apply report_lines_returned in Hreport.
  destruct Hreport as (head & lines & Hhead & ->).
  unfold report_head in Hhead.
  apply and_then_returned in Hhead. destruct Hhead as (total & Htotal & Hhead).
  apply and_then_returned in Hhead. destruct Hhead as (revenue & Hbest & Hhead).
  apply fmt_money_returned in Htotal. destruct Htotal as [_ ->].
  apply fmt_money_returned in Hbest. destruct Hbest as [_ ->].
  cbn beta in Hhead. apply Returned_inj in Hhead. subst head.
  exists lines. rewrite <- !app_assoc. reflexivity.
Qed.

Section StaffPaths.

Variable completions_create : list Request -> Request -> result str.
Variable now : str.

(** X8: a staff message that mentions [report] or [analytics] is
    answered by the sales report, whatever else it mentions (a revenue
    keyword for instance); when the report raises, so does
    [process_message].  Either way the session is left as it was: the
    exchange is not recorded in the transcript and nothing is sent to the
    hosted model. *)
Theorem staff_report_not_recorded (w : World) (user_message : str) :
  user_role (bot w) = STAFF ->
  mentions report_keywords user_message ->
  process_message completions_create now user_message w
  = (_generate_sales_report now (bot w), w).
Proof.
  intros Hrole Hkw. apply mentions_existsb in Hkw.
  unfold process_message; cbv zeta. rewrite bind_get_self.
  rewrite (check_staff_only_staff _ _ Hrole), if_truthy_none.
  rewrite (check_attribute_staff _ _ Hrole), if_truthy_none.
  unfold report_keywords in Hkw. rewrite Hkw, Hrole. reflexivity.
Qed.

(** X9: a staff message that asks for no report and that the
    analytics handler answers gets that answer; the user entry and the
    answer are appended to the transcript, and nothing is sent to the
    hosted model. *)
Theorem staff_analytics_recorded (w : World) (user_message answer : str) :
  user_role (bot w) = STAFF ->
  ~ mentions report_keywords user_message ->
  _handle_staff_analytics (bot w) user_message (detect_language user_message)
  = Returned (Some answer) ->
  process_message completions_create now user_message w
  = (Returned answer,
     {| bot := with_history (bot w)
                 (conversation_history (bot w)
                  ++ [{| role := user; content := user_message |};
                      {| role := assistant; content := answer |}]);
        sent := sent w;
        stderr := stderr w |}).
Proof.
  intros Hrole Hkw Hans. apply not_mentions_existsb in Hkw.
  unfold process_message; cbv zeta. rewrite bind_get_self.
  rewrite (check_staff_only_staff _ _ Hrole), if_truthy_none.
  rewrite (check_attribute_staff _ _ Hrole), if_truthy_none.
  unfold report_keywords in Hkw. rewrite Hkw. cbn [andb].
  rewrite Hans, bind_lift_returned.
  rewrite if_truthy_some by (apply (handle_staff_analytics_nonempty _ _ _ _ Hans)).
  unfold bind, append_history, set_conversation_history, ret.
  cbn [bot sent stderr conversation_history model system_prompt products
       user_role attribute_policies].
  unfold with_history. rewrite <- app_assoc. reflexivity.
Qed.

(** X10: when the first reply of the hosted model is detected in the
    language of the message, it is returned as it is after that one
    request; the request holds the system prompt, the transcript of before
    and the message as its last, user entry; the transcript grows by the
    user entry and the reply. *)
Theorem same_language_reply_returned (w : World) (user_message reply : str) :
  let history := conversation_history (bot w) in
  delegated (bot w) user_message = true ->
  completions_create (sent w) (request_for (bot w) history user_message)
  = Returned reply ->
  detect_language reply = detect_language user_message ->
  process_message completions_create now user_message w
  = (Returned reply,
     {| bot := with_history (bot w)
                 (history ++ [{| role := user; content := user_message |};
                              {| role := assistant; content := reply |}]);
        sent := sent w
                ++ [{| rq_model := model (bot w);
                       rq_messages :=
                         {| role := system; content := system_prompt (bot w) |}
                         :: history
                         ++ [{| role := user; content := user_message |}] |}];
        stderr := stderr w |}).
Proof.
  intros history Hdel Hreply Hlang.
  rewrite (delegated_run completions_create now w user_message Hdel).
  cbv zeta. fold history. rewrite Hreply.
  apply Language_eqb_eq in Hlang. rewrite Hlang. reflexivity.
Qed.

Lemma delegated_with_history (self : ProductChatbot) (h : list ChatMessage)
    (user_message : str) :
  delegated (with_history self h) user_message = delegated self user_message.
Proof. reflexivity. Qed.

(** X11: a turn that failed is neither retried nor taken back.
    When the first request of a turn fails and another message is then
    delegated, the request sent for it carries the earlier transcript, the
    unanswered user entry and, right after it, the new user entry. *)
Theorem unanswered_entry_sent_with_next_message
    (w : World) (first second : str) (e : exn) :
  let history := conversation_history (bot w) in
  let request1 := request_for (bot w) history first in
  let w1 := snd (process_message completions_create now first w) in
  let w2 := snd (process_message completions_create now second w1) in
  delegated (bot w) first = true ->
  delegated (bot w) second = true ->
  completions_create (sent w) request1 = Raised e ->
  exists later,
    sent w2
    = sent w
      ++ [request1;
          {| rq_model := model (bot w);
             rq_messages :=
               {| role := system; content := system_prompt (bot w) |}
               :: history
               ++ [{| role := user; content := first |};
                   {| role := user; content := second |}] |}]
      ++ later.
Proof.
  intros history request1 w1 w2 Hdel1 Hdel2 Hfail.
  assert (Hw1 : w1 = {| bot := with_history (bot w)
                                 (history ++ [{| role := user; content := first |}]);
                        sent := sent w ++ [request1];
                        stderr := stderr w ++ [debug_line e] |}).
  { unfold w1.
    rewrite (delegated_run completions_create now w first Hdel1).
    cbv zeta. fold history. fold request1. rewrite Hfail. reflexivity. }
  assert (Hdel2' : delegated (bot w1) second = true).
  { rewrite Hw1. cbn [bot]. rewrite delegated_with_history. exact Hdel2. }
  unfold w2.
  rewrite (delegated_run completions_create now w1 second Hdel2').
  cbv zeta. rewrite Hw1.
  cbn [bot sent stderr with_history conversation_history].
  match goal with
  | |- context [match completions_create ?s ?r with _ => _ end] =>
    destruct (completions_create s r) as [reply1|e1]
  end.
  - destruct (Language_eqb _ _).
    + exists []. cbn [snd sent]. unfold request_for.
      cbn [model system_prompt with_history].
      do 2 (cbn [app]; rewrite <- ?app_assoc). reflexivity.
    + match goal with
      | |- context [match completions_create ?s ?r with _ => _ end] =>
        destruct (completions_create s r) as [reply2|e2]
      end; eexists [_]; cbn [snd sent]; unfold request_for;
        cbn [model system_prompt with_history];
        do 2 (cbn [app]; rewrite <- ?app_assoc); reflexivity.
  - exists []. cbn [snd sent]. unfold request_for.
    cbn [model system_prompt with_history].
    do 2 (cbn [app]; rewrite <- ?app_assoc). reflexivity.
Qed.

End StaffPaths.

(* ================================================================== *)
(** ** Letter case *)

Lemma lower_app (a b : str) : lower (a ++ b) = lower a ++ lower b.
Proof. unfold lower. apply flat_map_app. Qed.

Lemma lower_char_fixed (c : Z) : lower (lower_char c) = lower_char c.
Proof.
  unfold lower, lower_char.
  repeat (split_comparisons; cbn [andb orb negb flat_map app]);
    try reflexivity; exfalso; lia.
Qed.

Lemma lower_idempotent (s : str) : lower (lower s) = lower s.
Proof.
  induction s as [|c s IH]; [reflexivity|].
  change (lower (c :: s)) with (lower_char c ++ lower s).
  rewrite lower_app, lower_char_fixed, IH. reflexivity.
Qed.

Lemma count_chars_app (p : Z -> bool) (a b : str) :
  count_chars p (a ++ b) = (count_chars p a + count_chars p b)%nat.
Proof. unfold count_chars. rewrite filter_app, length_app. reflexivity. Qed.








(* ================================================================== *)
(** ** The role *)

Lemma str_eqb_eq (a b : str) : str_eqb a b = true <-> a = b.
Proof.
  revert b; induction a as [|x a IH]; intros [|y b]; cbn [str_eqb];
    try (split; [intros H; discriminate H | intros H; discriminate H]).
  - split; reflexivity.
  - rewrite andb_true_iff, Z.eqb_eq, IH.
    split; [intros [-> ->]; reflexivity | intros H; injection H as -> ->; auto].
Qed.

(** X14: [set_user_role] never raises and looks at the lowercase form of
    its argument only: the role becomes staff exactly when that form is
    [staff], and customer otherwise; a warning that quotes the argument is
    printed exactly when the form is neither [customer] nor [staff].  The
    transcript, the catalog, the policy and the prompt are left as they
    are. *)
Theorem set_user_role_by_lowercase (role : str) (self : ProductChatbot) :
  exists r,
    fst (set_user_role role self) = Returned (with_role self r)
    /\ (r = STAFF <-> lower role = utf8 "staff")
    /\ (r = CUSTOMER <-> lower role <> utf8 "staff")
    /\ (snd (set_user_role role self) = [] <->
        lower role = utf8 "customer" \/ lower role = utf8 "staff")
    /\ (snd (set_user_role role self) = []
        \/ snd (set_user_role role self)
           = [utf8 "Invalid role: " ++ role
              ++ utf8 ". Using 'customer' as default."]).
Proof.
  unfold set_user_role, UserRole_of_value.
  destruct (str_eqb (lower role) (utf8 "customer")) eqn:Ec.
  - apply str_eqb_eq in Ec. exists CUSTOMER. cbn [fst snd].
    split; [reflexivity|].
    split; [split; [discriminate|rewrite Ec; vm_compute; discriminate]|].
    split; [split; [intros _; rewrite Ec; vm_compute; discriminate|reflexivity]|].
    split; [split; [intros _; left; exact Ec|reflexivity]|].
    left; reflexivity.
  - assert (Hc : lower role <> utf8 "customer").
    { intros H. apply str_eqb_eq in H. rewrite H in Ec. discriminate Ec. }
    destruct (str_eqb (lower role) (utf8 "staff")) eqn:Es.
    + apply str_eqb_eq in Es. exists STAFF. cbn [fst snd].
      split; [reflexivity|].
      split; [split; [intros _; exact Es|reflexivity]|].
      split; [split; [discriminate|intros H; contradiction (H Es)]|].
      split; [split; [intros _; right; exact Es|reflexivity]|].
      left; reflexivity.
    + assert (Hs : lower role <> utf8 "staff").
      { intros H. apply str_eqb_eq in H. rewrite H in Es. discriminate Es. }
      exists CUSTOMER. cbn [fst snd].
      split; [reflexivity|].
      split; [split; [discriminate|intros H; contradiction (Hs H)]|].
      split; [split; [intros _; exact Hs|reflexivity]|].
      split; [split; [discriminate|intros [H|H]; [contradiction (Hc H)
                                                 |contradiction (Hs H)]]|].
      right; reflexivity.
Qed.

(* ================================================================== *)
(** ** The system prompt *)

Lemma format_products_blocks (ps : list Product) :
  _format_products_for_context ps
  = (utf8 "Available Products:" ++ nl) ++ List.concat (map product_context ps).
Proof.
  unfold _format_products_for_context.
  generalize (utf8 "Available Products:" ++ nl).
  induction ps as [|p ps IH]; intros formatted; cbn [fold_left map List.concat].
  - rewrite app_nil_r. reflexivity.
  - rewrite IH, <- app_assoc. reflexivity.
Qed.

Lemma system_prompt_holds_block (ps : list Product) (p : Product) :
  In p ps ->
  exists before after,
    _create_system_prompt ps = before ++ product_context p ++ after.
Proof.
  intros Hin. apply in_split in Hin as (l1 & l2 & ->).
  unfold _create_system_prompt. cbv zeta.
  rewrite format_products_blocks, map_app, concat_app.
  cbn [map List.concat].
  exists (system_prompt_head ++ (utf8 "Available Products:" ++ nl)
          ++ List.concat (map product_context l1)),
         (List.concat (map product_context l2) ++ system_prompt_tail).
  rewrite <- !app_assoc. reflexivity.
Qed.

Lemma product_context_units_line (p : Product) :
  exists before after,
    product_context p
    = before ++ (utf8 "  Units Sold: " ++ fmt_int (units_sold p) ++ nl) ++ after.
Proof.
  unfold product_context.
  exists (nl ++ utf8 "- ID: " ++ product_id p ++ nl
          ++ utf8 "  Name (EN): " ++ name p ++ nl
          ++ utf8 "  Name (AR): " ++ name_ar p ++ nl
          ++ utf8 "  Price: $" ++ fmt_int (price p) ++ utf8 " " ++ currency p ++ nl
          ++ utf8 "  Category: " ++ category p ++ nl),
         (utf8 "  Description (EN): " ++ description p ++ nl
          ++ utf8 "  Description (AR): " ++ description_ar p ++ nl).
  rewrite <- !app_assoc. reflexivity.
Qed.

Section PromptSent.

Variable completions_create : list Request -> Request -> result str.
Variable now : str.

(** X15: the system prompt built when the chatbot is created holds the
    block of every record of the catalog, and with it the line that shows
    the units sold of that record.  A new session is a customer session,
    and the first request it sends for a delegated message opens with that
    prompt as its system entry: the figures the attribute gate withholds
    from a customer are part of what is sent to the hosted model for a
    customer. *)
Theorem system_prompt_holds_units_sold
    (ps : list Product) (model_name user_message : str) (p : Product) :
  let w := start ps model_name in
  let prompt := _create_system_prompt ps in
  In p ps ->
  delegated (bot w) user_message = true ->
  user_role (bot w) = CUSTOMER
  /\ contains prompt (product_context p) = true
  /\ contains prompt (utf8 "  Units Sold: " ++ fmt_int (units_sold p) ++ nl) = true
  /\ exists later,
       sent (snd (process_message completions_create now user_message w))
       = {| rq_model := model_name;
            rq_messages := [{| role := system; content := prompt |};
                            {| role := user; content := user_message |}] |}
         :: later.
Proof.
  intros w prompt Hin Hdel.
  split; [reflexivity|].
  destruct (system_prompt_holds_block ps p Hin) as (before & after & Hblock).
  split; [unfold prompt; rewrite Hblock; apply contains_middle|].
  split.
  - destruct (product_context_units_line p) as (b2 & a2 & Hline).
    remember (utf8 "  Units Sold: " ++ fmt_int (units_sold p) ++ nl)
      as line eqn:Eline in *.
    unfold prompt. rewrite Hblock, Hline.
    replace (before ++ (b2 ++ line ++ a2) ++ after)
      with ((before ++ b2) ++ line ++ (a2 ++ after))
      by (rewrite <- !app_assoc; reflexivity).
    apply contains_middle.
  - rewrite (delegated_run completions_create now w user_message Hdel).
    cbv zeta.
    change (request_for (bot w) (conversation_history (bot w)) user_message)
      with {| rq_model := model_name;
              rq_messages := [{| role := system; content := prompt |};
                              {| role := user; content := user_message |}] |}.
    change (sent w) with (@nil Request).
    destruct (completions_create [] _) as [reply1|e].
    + destruct (Language_eqb _ _).
      * exists []. reflexivity.
      * destruct (completions_create _ _) as [reply2|e]; eexists [_];
          reflexivity.
    + exists []. reflexivity.
Qed.

End PromptSent.

(* ================================================================== *)
(** ** The chat page *)

Section ChatPageProperties.

Variable completions_create : list Request -> Request -> result str.
Variable now : str.

(** X16: pressing Send on a blank input (nothing but white space) changes
    nothing.  When a customer sends a question on a staff topic, the page
    shows the question and the staff-only rejection, while the chatbot is
    left as it was: the exchange the page displays is not in the
    transcript that later requests carry. *)
Theorem rejection_shown_not_recorded (user_input : str) (st : SessionState) :
  (strip user_input = [] ->
   send_pressed completions_create now user_input st = (Returned tt, st))
  /\ (strip user_input <> [] ->
      user_role (bot (chatbot st)) = CUSTOMER ->
      mentions staff_keywords user_input ->
      send_pressed completions_create now user_input st
      = (Returned tt,
         {| chatbot := chatbot st;
            messages :=
              messages st
              ++ [{| role := user; content := user_input |};
                  {| role := assistant;
                     content := staff_only_rejection user_input |}];
            page_user_role := page_user_role st |})).
Proof.
  unfold send_pressed. split.
  - intros ->. reflexivity.
  - intros Hinput Hrole Hkw.
    destruct (strip user_input) as [|c s]; [contradiction Hinput; reflexivity|].
    cbv zeta.
    rewrite (staff_topic_gate_fires completions_create now _ _ Hrole Hkw).
    rewrite <- app_assoc. reflexivity.
Qed.

(** X17: the role radio of the page does not reach the chatbot, and the
    report button asks the chatbot for the report without any check of its
    role.  With a chatbot connected as customer, selecting staff on the
    page and pressing Generate Sales Report shows the sales report whenever
    one is generated for the catalog, although the same request sent as a
    message is rejected as staff-only and the role of the chatbot is still
    customer. *)
Theorem report_button_ignores_chatbot_role (st : SessionState) (report : str) :
  user_role (bot (chatbot st)) = CUSTOMER ->
  _generate_sales_report now (bot (chatbot st)) = Returned report ->
  report_pressed now (select_role (utf8 "staff") st)
  = (Returned tt,
     {| chatbot := chatbot st;
        messages :=
          messages st
          ++ [{| role := user; content := utf8 "Generate a sales report" |};
              {| role := assistant; content := report |}];
        page_user_role := utf8 "staff" |})
  /\ user_role (bot (chatbot (select_role (utf8 "staff") st))) = CUSTOMER
  /\ process_message completions_create now (utf8 "Generate a sales report")
       (chatbot st)
     = (Returned staff_only_en, chatbot st).
Proof.
  intros Hrole Hreport. split.
  - unfold report_pressed, select_role. cbn [page_user_role chatbot messages].
    assert (E : str_eqb (utf8 "staff") (utf8 "staff") = true)
      by (vm_compute; reflexivity).
    rewrite E, Hreport, <- app_assoc. reflexivity.
  - split; [exact Hrole|].
    assert (Hkw : mentions staff_keywords (utf8 "Generate a sales report"))
      by (apply mentions_existsb; vm_compute; reflexivity).
    assert (E : staff_only_rejection (utf8 "Generate a sales report")
                = staff_only_en) by (vm_compute; reflexivity).
    rewrite <- E.
    apply (staff_topic_gate_fires completions_create now _ _ Hrole Hkw).
Qed.

End ChatPageProperties.

(* ================================================================== *)
(** ** The properties on concrete sessions *)

Lemma reachable_session_invariant_witness :
  turns (conversation_history (bot (start catalog3 (utf8 "gpt-3.5-turbo"))))
  /\ reachable model_down []
       (start catalog3 (utf8 "gpt-3.5-turbo"))
       (snd (process_message model_down [] price_question
               (start catalog3 (utf8 "gpt-3.5-turbo"))))
  /\ turns (conversation_history
              (bot (snd (process_message model_down [] price_question
                           (start catalog3 (utf8 "gpt-3.5-turbo"))))))
  /\ products (bot (snd (process_message model_down [] price_question
                           (start catalog3 (utf8 "gpt-3.5-turbo")))))
     = catalog3.
Proof.
  assert (H1 : turns (conversation_history
                        (bot (start catalog3 (utf8 "gpt-3.5-turbo")))))
    by apply turns_nil.
  assert (H2 : reachable model_down []
                 (start catalog3 (utf8 "gpt-3.5-turbo"))
                 (snd (process_message model_down [] price_question
                         (start catalog3 (utf8 "gpt-3.5-turbo"))))).
  { eapply reachable_step; [apply reachable_here|apply step_message]. }
  destruct (reachable_session_invariant model_down [] _ _ H1 H2)
    as (Ht & _ & Hp & _).
  split; [exact H1|]. split; [exact H2|]. split; [exact Ht|]. exact Hp.
Defined.

Lemma customer_routing_witness :
  user_role (bot (session catalog3 CUSTOMER)) = CUSTOMER
  /\ delegated (bot (session catalog3 CUSTOMER)) price_question = true
  /\ ~ mentions staff_keywords price_question
  /\ ~ mentions_restricted (attribute_policies (bot (session catalog3 CUSTOMER)))
         price_question.
Proof.
  assert (H1 : user_role (bot (session catalog3 CUSTOMER)) = CUSTOMER)
    by reflexivity.
  assert (H2 : delegated (bot (session catalog3 CUSTOMER)) price_question = true)
    by (vm_compute; reflexivity).
  destruct (customer_routing model_down [] (session catalog3 CUSTOMER)
              price_question H1) as (_ & [Hiff _] & _).
  split; [exact H1|]. split; [exact H2|]. exact (Hiff H2).
Defined.

Lemma staff_analytics_answers_witness :
  user_role (bot (session catalog3 STAFF)) = STAFF
  /\ ~ mentions revenue_keywords (utf8 "Which one is the best seller?")
  /\ ~ mentions_units (utf8 "Which one is the best seller?")
  /\ mentions best_seller_keywords (utf8 "Which one is the best seller?")
  /\ best_seller_of (products (bot (session catalog3 STAFF)))
     = Some (item "ERP" 20 50)
  /\ fits_float (price (item "ERP" 20 50) * units_sold (item "ERP" 20 50))
  /\ _handle_staff_analytics (bot (session catalog3 STAFF))
       (utf8 "Which one is the best seller?") english
     = Returned (Some (utf8 "Best seller: ERP — 50 units ($1,000.00).")).
Proof.
  assert (H1 : user_role (bot (session catalog3 STAFF)) = STAFF) by reflexivity.
  assert (H2 : ~ mentions revenue_keywords (utf8 "Which one is the best seller?"))
    by (apply not_mentions_existsb; vm_compute; reflexivity).
  assert (H3 : ~ mentions_units (utf8 "Which one is the best seller?")).
  { intros H. apply mentions_units_existsb in H. vm_compute in H.
    discriminate H. }
  assert (H4 : mentions best_seller_keywords (utf8 "Which one is the best seller?"))
    by (apply mentions_existsb; vm_compute; reflexivity).
  assert (H5 : best_seller_of (products (bot (session catalog3 STAFF)))
               = Some (item "ERP" 20 50)) by (vm_compute; reflexivity).
  assert (H6 : fits_float (price (item "ERP" 20 50) * units_sold (item "ERP" 20 50)))
    by (vm_compute; reflexivity).
  assert (E : utf8 "Best seller: " ++ name (item "ERP" 20 50) ++ utf8 " — "
              ++ fmt_int (units_sold (item "ERP" 20 50)) ++ utf8 " units ($"
              ++ money_text
                   (nearest_double
                      (price (item "ERP" 20 50) * units_sold (item "ERP" 20 50)))
              ++ utf8 ")."
              = utf8 "Best seller: ERP — 50 units ($1,000.00).")
    by (vm_compute; reflexivity).
  pose proof (proj2 (staff_analytics_answers (bot (session catalog3 STAFF))
                       (utf8 "Which one is the best seller?") english H1)
                H2 H3 H4) as H.
  rewrite H5 in H. destruct H as [H _].
  split; [exact H1|]. split; [exact H2|]. split; [exact H3|]. split; [exact H4|].
  split; [exact H5|]. split; [exact H6|].
  rewrite <- E. exact (H H6).
Defined.

Lemma best_seller_is_first_maximum_witness :
  products (bot (session catalog3 STAFF)) <> []
  /\ exists best l1 l2,
       products (bot (session catalog3 STAFF)) = l1 ++ best :: l2
       /\ Forall (fun q => units_sold q < units_sold best) l1
       /\ Forall (fun q => units_sold q <= units_sold best) l2
       /\ best_seller_of (products (bot (session catalog3 STAFF))) = Some best.
Proof.
  assert (H1 : products (bot (session catalog3 STAFF)) <> [])
    by (vm_compute; discriminate).
  split; [exact H1|].
  destruct (best_seller_is_first_maximum [] (bot (session catalog3 STAFF)) H1)
    as (best & l1 & l2 & Heq & Hl1 & Hl2 & Hbest & _).
  exists best, l1, l2. auto.
Defined.

Lemma staff_report_not_recorded_witness :
  user_role (bot (session catalog3 STAFF)) = STAFF
  /\ mentions report_keywords (utf8 "Revenue report")
  /\ mentions revenue_keywords (utf8 "Revenue report")
  /\ process_message model_down [] (utf8 "Revenue report")
       (session catalog3 STAFF)
     = (_generate_sales_report [] (bot (session catalog3 STAFF)),
        session catalog3 STAFF).
Proof.
  assert (H1 : user_role (bot (session catalog3 STAFF)) = STAFF) by reflexivity.
  assert (H2 : mentions report_keywords (utf8 "Revenue report"))
    by (apply mentions_existsb; vm_compute; reflexivity).
  assert (H3 : mentions revenue_keywords (utf8 "Revenue report"))
    by (apply mentions_existsb; vm_compute; reflexivity).
  split; [exact H1|]. split; [exact H2|]. split; [exact H3|].
  exact (staff_report_not_recorded model_down [] (session catalog3 STAFF)
           (utf8 "Revenue report") H1 H2).
Defined.

Lemma staff_analytics_recorded_witness :
  user_role (bot (session catalog3 STAFF)) = STAFF
  /\ ~ mentions report_keywords (utf8 "What is the total revenue?")
  /\ fst (process_message model_down [] (utf8 "What is the total revenue?")
            (session catalog3 STAFF))
     = Returned (utf8 "Total revenue: $2,150.00 USD.")
  /\ conversation_history
       (bot (snd (process_message model_down []
                    (utf8 "What is the total revenue?")
                    (session catalog3 STAFF))))
     = [{| role := user; content := utf8 "What is the total revenue?" |};
        {| role := assistant;
           content := utf8 "Total revenue: $2,150.00 USD." |}].
Proof.
  assert (H1 : user_role (bot (session catalog3 STAFF)) = STAFF) by reflexivity.
  assert (H2 : ~ mentions report_keywords (utf8 "What is the total revenue?"))
    by (apply not_mentions_existsb; vm_compute; reflexivity).
  assert (H3 : _handle_staff_analytics (bot (session catalog3 STAFF))
                 (utf8 "What is the total revenue?")
                 (detect_language (utf8 "What is the total revenue?"))
               = Returned (Some (utf8 "Total revenue: $2,150.00 USD.")))
    by (vm_compute; reflexivity).
  split; [exact H1|]. split; [exact H2|].
  rewrite (staff_analytics_recorded model_down [] (session catalog3 STAFF)
             (utf8 "What is the total revenue?")
             (utf8 "Total revenue: $2,150.00 USD.") H1 H2 H3).
  split; reflexivity.
Defined.

Lemma same_language_reply_returned_witness :
  delegated (bot (session catalog3 CUSTOMER)) price_question = true
  /\ detect_language reply_en = detect_language price_question
  /\ fst (process_message (scripted [reply_en]) [] price_question
            (session catalog3 CUSTOMER))
     = Returned reply_en
  /\ List.length
       (sent (snd (process_message (scripted [reply_en]) [] price_question
                     (session catalog3 CUSTOMER))))
     = 1%nat.
Proof.
  assert (H1 : delegated (bot (session catalog3 CUSTOMER)) price_question = true)
    by (vm_compute; reflexivity).
  assert (H2 : detect_language reply_en = detect_language price_question)
    by (vm_compute; reflexivity).
  split; [exact H1|]. split; [exact H2|].
  rewrite (same_language_reply_returned (scripted [reply_en]) []
             (session catalog3 CUSTOMER) price_question reply_en
             H1 eq_refl H2).
  split; reflexivity.
Defined.

Lemma unanswered_entry_sent_with_next_message_witness :
  delegated (bot (session catalog3 CUSTOMER)) price_question = true
  /\ delegated (bot (session catalog3 CUSTOMER)) (utf8 "And the category?") = true
  /\ exists later,
       sent (snd (process_message model_down [] (utf8 "And the category?")
                    (snd (process_message model_down [] price_question
                            (session catalog3 CUSTOMER)))))
       = sent (session catalog3 CUSTOMER)
         ++ [request_for (bot (session catalog3 CUSTOMER))
               (conversation_history (bot (session catalog3 CUSTOMER)))
               price_question;
             {| rq_model := model (bot (session catalog3 CUSTOMER));
                rq_messages :=
                  {| role := system;
                     content := system_prompt (bot (session catalog3 CUSTOMER)) |}
                  :: conversation_history (bot (session catalog3 CUSTOMER))
                  ++ [{| role := user; content := price_question |};
                      {| role := user; content := utf8 "And the category?" |}] |}]
         ++ later.
Proof.
  assert (H1 : delegated (bot (session catalog3 CUSTOMER)) price_question = true)
    by (vm_compute; reflexivity).
  assert (H2 : delegated (bot (session catalog3 CUSTOMER))
                 (utf8 "And the category?") = true)
    by (vm_compute; reflexivity).
  split; [exact H1|]. split; [exact H2|].
  exact (unanswered_entry_sent_with_next_message model_down []
           (session catalog3 CUSTOMER) price_question (utf8 "And the category?")
           (APIError (utf8 "Connection error.")) H1 H2 eq_refl).
Defined.


Lemma system_prompt_holds_units_sold_witness :
  In (item "ERP" 20 50) catalog3
  /\ delegated (bot (start catalog3 (utf8 "gpt-3.5-turbo"))) price_question = true
  /\ contains (_create_system_prompt catalog3)
       (utf8 "  Units Sold: " ++ fmt_int (units_sold (item "ERP" 20 50)) ++ nl)
     = true.
Proof.
  assert (H1 : In (item "ERP" 20 50) catalog3) by (right; left; reflexivity).
  assert (H2 : delegated (bot (start catalog3 (utf8 "gpt-3.5-turbo")))
                 price_question = true)
    by (vm_compute; reflexivity).
  destruct (system_prompt_holds_units_sold model_down [] catalog3
              (utf8 "gpt-3.5-turbo") price_question (item "ERP" 20 50) H1 H2)
    as (_ & _ & Hline & _).
  split; [exact H1|]. split; [exact H2|]. exact Hline.
Defined.

Example erp_units_line_in_prompt :
  contains (system_prompt (ProductChatbot_init catalog3 (utf8 "gpt-3.5-turbo")))
    (utf8 "  Units Sold: 50") = true.
Proof. vm_compute. reflexivity. Qed.

Lemma rejection_shown_not_recorded_witness :
  strip (utf8 " sales report ") <> []
  /\ user_role (bot (session catalog3 CUSTOMER)) = CUSTOMER
  /\ mentions staff_keywords (utf8 " sales report ")
  /\ send_pressed model_down [] (utf8 " sales report ")
       {| chatbot := session catalog3 CUSTOMER; messages := [];
          page_user_role := utf8 "customer" |}
     = (Returned tt,
        {| chatbot := session catalog3 CUSTOMER;
           messages :=
             [] ++ [{| role := user; content := utf8 " sales report " |};
                    {| role := assistant;
                       content := staff_only_rejection (utf8 " sales report ") |}];
           page_user_role := utf8 "customer" |}).
Proof.
  assert (H1 : strip (utf8 " sales report ") <> [])
    by (vm_compute; discriminate).
  assert (H2 : user_role (bot (session catalog3 CUSTOMER)) = CUSTOMER)
    by reflexivity.
  assert (H3 : mentions staff_keywords (utf8 " sales report "))
    by (apply mentions_existsb; vm_compute; reflexivity).
  split; [exact H1|]. split; [exact H2|]. split; [exact H3|].
  exact (proj2 (rejection_shown_not_recorded model_down []
                  (utf8 " sales report ")
                  {| chatbot := session catalog3 CUSTOMER; messages := [];
                     page_user_role := utf8 "customer" |}) H1 H2 H3).
Defined.

Lemma report_button_ignores_chatbot_role_witness :
  user_role (bot (session catalog3 CUSTOMER)) = CUSTOMER
  /\ exists report,
       _generate_sales_report (utf8 "2025-01-01 09:00:00")
         (bot (session catalog3 CUSTOMER))
       = Returned report
       /\ report_pressed (utf8 "2025-01-01 09:00:00")
            (select_role (utf8 "staff")
               {| chatbot := session catalog3 CUSTOMER; messages := [];
                  page_user_role := utf8 "customer" |})
          = (Returned tt,
             {| chatbot := session catalog3 CUSTOMER;
                messages :=
                  [{| role := user; content := utf8 "Generate a sales report" |};
                   {| role := assistant; content := report |}];
                page_user_role := utf8 "staff" |}).
Proof.
  assert (H1 : user_role (bot (session catalog3 CUSTOMER)) = CUSTOMER)
    by reflexivity.
  assert (Hne : products (bot (session catalog3 CUSTOMER)) <> [])
    by (vm_compute; discriminate).
  assert (Hfit : figures_fit (products (bot (session catalog3 CUSTOMER)))).
  { change (products (bot (session catalog3 CUSTOMER))) with catalog3.
    unfold figures_fit, catalog3.
    split; [vm_compute; reflexivity|]. split; [vm_compute; reflexivity|].
    repeat (constructor; [split; vm_compute; reflexivity|]). constructor. }
  destruct (generate_sales_report_returns (utf8 "2025-01-01 09:00:00")
              (bot (session catalog3 CUSTOMER)) Hne Hfit) as [report H2].
  split; [exact H1|].
  exists report. split; [exact H2|].
  exact (proj1 (report_button_ignores_chatbot_role model_down
                  (utf8 "2025-01-01 09:00:00")
                  {| chatbot := session catalog3 CUSTOMER; messages := [];
                     page_user_role := utf8 "customer" |} report H1 H2)).
Defined.

(* ================================================================== *)
(** ** Which staff messages reach the hosted model *)

(** X5: in a staff session a message goes to the hosted model exactly
    when it asks for no report (neither [report] nor [analytics]) and
    mentions no revenue keyword, no units pair and no best-seller keyword;
    the gates never stop it. *)
Theorem staff_routing (self : ProductChatbot) (user_message : str) :
  user_role self = STAFF ->
  (delegated self user_message = true <->
   ~ mentions report_keywords user_message
   /\ ~ mentions revenue_keywords user_message
   /\ ~ mentions_units user_message
   /\ ~ mentions best_seller_keywords user_message).
Proof.
  intros Hrole. unfold delegated.
  rewrite (check_staff_only_staff _ _ Hrole), if_truthy_none.
  rewrite (check_attribute_staff _ _ Hrole), if_truthy_none.
  rewrite Hrole. cbn [UserRole_eqb]. rewrite andb_true_r.
  rewrite (not_mentions_existsb report_keywords). unfold report_keywords.
  destruct (existsb _ [utf8 "report"; utf8 "analytics"]).
  - split; [intros H; discriminate H|intros [H _]; discriminate H].
  - rewrite <- (handle_staff_analytics_none self user_message
                  (detect_language user_message) Hrole).
    destruct (_handle_staff_analytics self user_message
                (detect_language user_message)) as [[answer|]|e] eqn:Hans.
    + rewrite if_truthy_some
        by (apply (handle_staff_analytics_nonempty _ _ _ _ Hans)).
      split; [intros H; discriminate H|intros [_ H]; discriminate H].
    + rewrite if_truthy_none. split; [intros _; split; reflexivity|reflexivity].
    + split; [intros H; discriminate H|intros [_ H]; discriminate H].
Qed.

Lemma staff_routing_witness :
  user_role (bot (session catalog3 STAFF)) = STAFF
  /\ delegated (bot (session catalog3 STAFF)) price_question = true
  /\ ~ mentions report_keywords price_question
  /\ ~ mentions best_seller_keywords price_question.
Proof.
  assert (H1 : user_role (bot (session catalog3 STAFF)) = STAFF) by reflexivity.
  assert (H2 : delegated (bot (session catalog3 STAFF)) price_question = true)
    by (vm_compute; reflexivity).
  destruct (proj1 (staff_routing (bot (session catalog3 STAFF)) price_question H1)
              H2) as (Hreport & _ & _ & Hbest).
  split; [exact H1|]. split; [exact H2|]. split; [exact Hreport|exact Hbest].
Defined.

(* ================================================================== *)
(** ** The language of the deterministic texts *)

Lemma count_chars_plain (s : str) :
  Forall (fun c => plain_char c = true) s ->
  count_chars counted_as_english s = 0%nat
  /\ count_chars in_arabic_block s = 0%nat.
Proof.
  unfold count_chars.
  induction 1 as [|c s Hc Hs [IH1 IH2]]; [split; reflexivity|].
  unfold plain_char in Hc. apply andb_true_iff in Hc as [He Ha].
  apply negb_true_iff in He. apply negb_true_iff in Ha.
  cbn [filter]. rewrite He, Ha. split; assumption.
Qed.

Lemma uint_digits_plain (d : Decimal.uint) :
  Forall (fun c => plain_char c = true) (uint_digits d).
Proof.
  induction d; cbn [uint_digits]; constructor; try assumption; reflexivity.
Qed.

Lemma commas_rev_plain (ds : str) :
  Forall (fun c => plain_char c = true) ds ->
  Forall (fun c => plain_char c = true) (commas_rev ds).
Proof.
  assert (H : forall n ds, (List.length ds <= n)%nat ->
                Forall (fun c => plain_char c = true) ds ->
                Forall (fun c => plain_char c = true) (commas_rev ds)).
  { induction n as [|n IH]; intros l Hlen Hall.
    - destruct l; [constructor|cbn in Hlen; lia].
    - destruct l as [|a [|b [|c [|d r]]]]; try exact Hall.
      change (commas_rev (a :: b :: c :: d :: r))
        with (a :: b :: c :: 44 :: commas_rev (d :: r)).
      inversion Hall as [|? ? Ha Hall1]; subst.
      inversion Hall1 as [|? ? Hb Hall2]; subst.
      inversion Hall2 as [|? ? Hc Hall3]; subst.
      repeat (constructor; [assumption|]).
      constructor; [reflexivity|].
      apply IH; [cbn [List.length] in *; lia|exact Hall3]. }
  apply (H (List.length ds)). lia.
Qed.

Lemma fmt_int_plain (z : Z) :
  Forall (fun c => plain_char c = true) (fmt_int z).
Proof.
  unfold fmt_int, sign, abs_digits. apply Forall_app. split.
  - destruct (z <? 0); [constructor; [reflexivity|constructor]|constructor].
  - apply uint_digits_plain.
Qed.

Lemma money_text_plain (z : Z) :
  Forall (fun c => plain_char c = true) (money_text z).
Proof.
  unfold money_text, sign, abs_digits. apply Forall_app. split.
  - destruct (z <? 0); [constructor; [reflexivity|constructor]|constructor].
  - apply Forall_app. split.
    + apply Forall_rev, commas_rev_plain, Forall_rev, uint_digits_plain.
    + repeat constructor.
Qed.

(** The language of a literal, a text of digits and signs, and a literal. *)
Lemma detect_language_framed (before middle after : str) :
  Forall (fun c => plain_char c = true) middle ->
  detect_language (before ++ middle ++ after)
  = detect_language (before ++ after).
Proof.
  intros Hplain. destruct (count_chars_plain middle Hplain) as [He Ha].
  rewrite !detect_language_counts, !count_chars_app, He, Ha.
  reflexivity.
Qed.

(** X13: the texts the router writes itself are in one language.
    Each rejection is in the language detected on the message; the revenue
    answer and the units answer of the staff analytics handler are in the
    language asked for, whatever the figures; the apology is English,
    whatever the language of the message. *)
Theorem deterministic_texts_language
    (self : ProductChatbot) (user_message : str) (language : Language) :
  detect_language (staff_only_rejection user_message)
  = detect_language user_message
  /\ detect_language (attribute_rejection user_message)
     = detect_language user_message
  /\ (forall text,
        revenue_answer self language = Returned text ->
        detect_language text = language)
  /\ detect_language (units_answer self language) = language
  /\ detect_language apology = english.
Proof.
  split; [unfold staff_only_rejection;
          destruct (detect_language user_message); vm_compute; reflexivity|].
  split; [unfold attribute_rejection;
          destruct (detect_language user_message); vm_compute; reflexivity|].
  split; [|split; [|vm_compute; reflexivity]].
  - intros text Htext.
    destruct language; unfold revenue_answer, fmt_en_revenue, fmt_ar_revenue in Htext;
      apply and_then_returned in Htext; destruct Htext as (amount & Hamount & Htext);
      cbn beta in Htext; apply Returned_inj in Htext; subst text;
      apply fmt_money_returned in Hamount; destruct Hamount as [_ ->];
      rewrite detect_language_framed by apply money_text_plain;
      vm_compute; reflexivity.
  - destruct language; unfold units_answer, fmt_en_units, fmt_ar_units;
      rewrite detect_language_framed by apply fmt_int_plain;
      vm_compute; reflexivity.
Qed.

Lemma deterministic_texts_language_witness :
  revenue_answer (bot (session catalog3 STAFF)) arabic
  = Returned (utf8 "إجمالي الإيرادات: $2,150.00 دولار أمريكي.")
  /\ detect_language (utf8 "إجمالي الإيرادات: $2,150.00 دولار أمريكي.") = arabic.
Proof.
  assert (H : revenue_answer (bot (session catalog3 STAFF)) arabic
              = Returned (utf8 "إجمالي الإيرادات: $2,150.00 دولار أمريكي."))
    by (vm_compute; reflexivity).
  split; [exact H|].
  destruct (deterministic_texts_language (bot (session catalog3 STAFF)) [] arabic)
    as (_ & _ & Hrevenue & _).
  exact (Hrevenue _ H).
Defined.
